(** * ReplayHandler: replay discovery and extraction

    A shallow embedding of [src/ps_ingestion_lambda/modules/replay_handler.py]
    and the properties of its extraction workflow.

    The Python code talks to three collaborators (the ladder retriever, the
    HTML fetcher and the JSON fetcher), writes log lines and raises
    exceptions.  The embedding keeps all three visible:

    - collaborators are fields of a [World] record, read-only oracles that
      answer each URL / format with a value or an exception;
    - every call to a collaborator and every log line is recorded, in
      program order, in a trace of [Event]s;
    - exceptions are values of [PyExn]; a computation of type [Py A]
      produces a trace and either returns a value or raises. *)

From stdpp Require Import gmap strings list.

Local Set Warnings "-register-all".
Local Open Scope Z_scope.

(** ** Python strings *)

Module PyStr.

(** [s[1:]] *)
Definition drop_first (s : string) : string :=
  match s with
  | EmptyString => EmptyString
  | String _ rest => rest
  end.

(** [needle in hay] on [str]: some suffix of [hay] starts with [needle]. *)
Fixpoint contains (needle hay : string) : bool :=
  String.prefix needle hay ||
  match hay with
  | EmptyString => false
  | String _ rest => contains needle rest
  end.

(** [not s] *)
Definition falsy (s : string) : bool :=
  match s with
  | EmptyString => true
  | String _ _ => false
  end.

(** ['...'], the [repr] of a string without quotes or escapes inside,
    which is what [str(KeyError(k))] prints. *)
Definition quote (s : string) : string := "'" +:+ s +:+ "'".

End PyStr.

(** ** Exceptions *)

(** The subclasses of [Exception] that the module names or that its
    expressions raise; [OtherException] stands for any further subclass
    a collaborator may raise.  Each carries its message. *)
Inductive PyExn : Type :=
| KeyError (key : string)
| TypeError (msg : string)
| RequestException (msg : string)
| LadderNotFoundException (msg : string)
| OtherException (msg : string).

(** [isinstance(e, KeyError)] *)
Definition is_KeyError (e : PyExn) : bool :=
  match e with
  | KeyError _ => true
  | _ => false
  end.

(** [isinstance(e, requests.exceptions.RequestException)] *)
Definition is_RequestException (e : PyExn) : bool :=
  match e with
  | RequestException _ => true
  | _ => false
  end.

(** [str(e)] *)
Definition str_exn (e : PyExn) : string :=
  match e with
  | KeyError k => PyStr.quote k
  | TypeError m | RequestException m
  | LadderNotFoundException m | OtherException m => m
  end.

(** ** Effects: trace and exceptions *)

Inductive Event : Type :=
| LogInfo (msg : string)
| LogWarning (msg : string)
| LogError (msg : string)
| CallGetUsers (format : string)
| CallGetSoup (url : string)
| CallGetResponse (url : string).

Inductive Outcome (A : Type) : Type :=
| Return (a : A)
| Raise (e : PyExn).
Arguments Return {A} a.
Arguments Raise {A} e.

Definition Py (A : Type) : Type := list Event * Outcome A.

Definition trace {A} (m : Py A) : list Event := fst m.
Definition outcome {A} (m : Py A) : Outcome A := snd m.

Definition ret {A} (a : A) : Py A := ([], Return a).
Definition raise {A} (e : PyExn) : Py A := ([], Raise e).
Definition emit (ev : Event) : Py unit := ([ev], Return tt).

Definition bind {A B} (m : Py A) (k : A -> Py B) : Py B :=
  match m with
  | (t, Return a) => let (t', r) := k a in (t ++ t', r)
  | (t, Raise e) => (t, Raise e)
  end.

(** [try: m  except Exception as e: h e] *)
Definition try_except {A} (m : Py A) (h : PyExn -> Py A) : Py A :=
  match m with
  | (t, Return a) => (t, Return a)
  | (t, Raise e) => let (t', r) := h e in (t ++ t', r)
  end.

(** An expression that evaluates to a value or raises, without effects. *)
Definition lift {A} (r : Outcome A) : Py A := ([], r).

#[global] Instance Py_ret : MRet Py := @ret.
#[global] Instance Py_bind : MBind Py := fun A B k m => bind m k.

Module logger.
Definition info (msg : string) : Py unit := emit (LogInfo msg).
Definition warning (msg : string) : Py unit := emit (LogWarning msg).
Definition error (msg : string) : Py unit := emit (LogError msg).
End logger.

(** ** Data model *)

(** [data.ladder_user_info.LadderUserInfo] *)
Record LadderUserInfo : Type := mkLadderUserInfo {
  lu_username : string;
  lu_rating : Z
}.

(** Values produced by [Response.json()]. *)
Inductive json : Type :=
| JNull
| JBool (b : bool)
| JNum (z : Z)
| JStr (s : string)
| JArr (items : list json)
| JObj (fields : gmap string json).

(** Modelled from the spec: [data.replay_info.ReplayInfo] is not part of
    the sources; the spec describes it as a plain data holder with the
    fields [id], [username], [rating], [format], [log], [uploadtime],
    filled positionally by its constructor.  The four fields taken from
    the payload keep whatever JSON value the payload had. *)
Record ReplayInfo : Type := mkReplayInfo {
  ri_id : json;
  ri_username : string;
  ri_rating : Z;
  ri_format : json;
  ri_log : json;
  ri_uploadtime : json
}.

(** ** The parsed search page *)

(** A [bs4] element: tag name, attribute dictionary, child elements. *)
Inductive Tag : Type :=
| mkTag (name : string) (attrs : gmap string string) (contents : list Tag).

Definition tag_name (t : Tag) : string := let (n, _, _) := t in n.
Definition tag_attrs (t : Tag) : gmap string string := let (_, a, _) := t in a.
Definition tag_contents (t : Tag) : list Tag := let (_, _, c) := t in c.

(** [tag.get(key)]: [None] when the attribute is absent. *)
Definition tag_get (t : Tag) (key : string) : option string := tag_attrs t !! key.

(** The elements below a node in document order, as [Tag.descendants]
    yields them. *)
Fixpoint descendants_of (t : Tag) : list Tag :=
  let fix go (ts : list Tag) : list Tag :=
    match ts with
    | [] => []
    | c :: cs => (c :: descendants_of c) ++ go cs
    end in
  go (tag_contents t).

(** A [BeautifulSoup] object is the root element of the document. *)
Definition BeautifulSoup : Type := Tag.

(** [soup.find_all(f)]: the descendants, in document order, on which the
    callable [f] is true.  [f] is called on every element in turn; an
    exception it raises ends the scan and propagates. *)
Fixpoint filter_raising (f : Tag -> Outcome bool) (ts : list Tag)
  : Outcome (list Tag) :=
  match ts with
  | [] => Return []
  | t :: rest =>
      match f t with
      | Raise e => Raise e
      | Return b =>
          match filter_raising f rest with
          | Raise e => Raise e
          | Return keep => Return (if b then t :: keep else keep)
          end
      end
  end.

Definition find_all (soup : BeautifulSoup) (f : Tag -> Outcome bool)
  : Outcome (list Tag) :=
  filter_raising f (descendants_of soup).

(** [[g t for t in ts]] where [g] may raise. *)
Fixpoint map_raising {A B} (g : A -> Outcome B) (xs : list A)
  : Outcome (list B) :=
  match xs with
  | [] => Return []
  | x :: rest =>
      match g x with
      | Raise e => Raise e
      | Return y =>
          match map_raising g rest with
          | Raise e => Raise e
          | Return ys => Return (y :: ys)
          end
      end
  end.

(** ** Collaborators *)

(** [requests.Response]: truth value is [ok]; [json()] parses the body or
    raises. *)
Record Response : Type := mkResponse {
  resp_ok : bool;
  resp_json : Outcome json
}.

(** What the outside world answers.  [w_get_users] is
    [LadderRetriever.get_users], whose result may be [None] or a list;
    [w_get_soup_from_url] and [w_get_response_from_url] are the two
    helpers of [utils.request_utils]; the latter may return [None].
    The same URL gets the same answer throughout a call, and
    [get_users], whose code is outside the sources, is taken to return
    rather than raise. *)
Record World : Type := mkWorld {
  w_get_users : string -> option (list LadderUserInfo);
  w_get_soup_from_url : string -> Outcome BeautifulSoup;
  w_get_response_from_url : string -> Outcome (option Response)
}.

(** ** Subscripting and loops *)

(** [obj[key]] with a string key: [KeyError] on a dictionary without the
    key, [TypeError] on anything that is not a dictionary. *)
Definition subscript (obj : json) (key : string) : Outcome json :=
  match obj with
  | JObj fields =>
      match fields !! key with
      | Some v => Return v
      | None => Raise (KeyError key)
      end
  | JArr _ => Raise (TypeError "list indices must be integers or slices, not str")
  | JStr _ => Raise (TypeError "string indices must be integers")
  | JNull => Raise (TypeError "'NoneType' object is not subscriptable")
  | JBool _ => Raise (TypeError "'bool' object is not subscriptable")
  | JNum _ => Raise (TypeError "'int' object is not subscriptable")
  end.

(** How one iteration of a [for] loop ends: fall through to the next
    element, or [break]. *)
Inductive Flow (S : Type) : Type :=
| Continue (s : S)
| Break (s : S).
Arguments Continue {S} s.
Arguments Break {S} s.

(** [for u in us: body], threading the loop variables [s]. *)
Fixpoint for_each {U S} (body : S -> U -> Py (Flow S)) (us : list U) (s : S)
  : Py S :=
  match us with
  | [] => mret s
  | u :: rest =>
      fl ← body s u;
      match fl with
      | Continue s' => for_each body rest s'
      | Break s' => mret s'
      end
  end.

Definition REPLAY_SEARCH_BASE_URL : string :=
  "https://replay.pokemonshowdown.com/search/?output=html&page=1&user=".

(** ** The handler *)

Section ReplayHandler.

(** [utils.constants] is not part of the sources: its two constants are
    parameters of the development. *)
Variable MAX_USERS : Z.
Variable REPLAY_BASE_URL : string.

(** The world the handler runs in, and the handler's own fields. *)
Variable w : World.
Variable format_id : string.

Definition get_users (fmt : string) : Py (option (list LadderUserInfo)) :=
  emit (CallGetUsers fmt);; mret (w_get_users w fmt).

Definition get_soup_from_url (url : string) : Py BeautifulSoup :=
  emit (CallGetSoup url);; lift (w_get_soup_from_url w url).

Definition get_response_from_url (url : string) : Py (option Response) :=
  emit (CallGetResponse url);; lift (w_get_response_from_url w url).

(** [lambda predicate: predicate.name == "a"
                       and self.format_id in predicate.get("href")];
    [x in None] raises [TypeError]. *)
Definition is_format_link (t : Tag) : Outcome bool :=
  if String.eqb (tag_name t) "a" then
    match tag_get t "href" with
    | Some href => Return (PyStr.contains format_id href)
    | None => Raise (TypeError "argument of type 'NoneType' is not iterable")
    end
  else Return false.

(** [replay.get("href")[1:]] *)
Definition href_tail (t : Tag) : Outcome string :=
  match tag_get t "href" with
  | Some href => Return (PyStr.drop_first href)
  | None => Raise (TypeError "'NoneType' object is not subscriptable")
  end.

(** The list comprehension of [_get_most_recent_replay_id]. *)
Definition replay_ids (soup : BeautifulSoup) : Outcome (list string) :=
  match find_all soup is_format_link with
  | Raise e => Raise e
  | Return links => map_raising href_tail links
  end.

Definition _get_most_recent_replay_id (username : string) : Py string :=
  let replay_search_url := REPLAY_SEARCH_BASE_URL +:+ username in
  try_except
    (replay_search_soup ← get_soup_from_url replay_search_url;
     replay_id ← lift (replay_ids replay_search_soup);
     mret (match replay_id with
           | first :: _ => first
           | [] => ""
           end))
    (fun e =>
       logger.warning ("Unable to reach server for replays: " +:+ str_exn e);;
       mret "").

(** [not replay_data_res]: [None], or a response whose status is an
    error. *)
Definition response_falsy (res : option Response) : bool :=
  match res with
  | None => true
  | Some r => negb (resp_ok r)
  end.

Definition _get_replay_json_from_id (replay_id : string) : Py json :=
  try_except
    (let replay_data_get_url := REPLAY_BASE_URL +:+ replay_id +:+ ".json" in
     replay_data_res ← get_response_from_url replay_data_get_url;
     match replay_data_res with
     | Some r => if negb (resp_ok r) then mret (JObj ∅) else lift (resp_json r)
     | None => mret (JObj ∅)
     end)
    (fun e => if is_RequestException e then raise e else raise e).

(** The body of the [try] of [_get_replay_info]; the arguments of the
    constructor are evaluated left to right. *)
Definition build_replay_info (user_info : LadderUserInfo) (replay_json : json)
  : Outcome ReplayInfo :=
  match subscript replay_json "id" with
  | Raise e => Raise e
  | Return id =>
      let username := lu_username user_info in
      let rating := lu_rating user_info in
      match subscript replay_json "format" with
      | Raise e => Raise e
      | Return format =>
          match subscript replay_json "log" with
          | Raise e => Raise e
          | Return log =>
              match subscript replay_json "uploadtime" with
              | Raise e => Raise e
              | Return uploadtime =>
                  Return (mkReplayInfo id username rating format log uploadtime)
              end
          end
      end
  end.

(** The function falls off its end in the second handler, so its
    result there is [None]. *)
Definition _get_replay_info (user_info : LadderUserInfo) (replay_id : string)
  : Py (option ReplayInfo) :=
  try_except
    (replay_json ← _get_replay_json_from_id replay_id;
     replay_info ← lift (build_replay_info user_info replay_json);
     mret (Some replay_info))
    (fun e =>
       if is_KeyError e then
         logger.error "Replay key not found";;
         raise e
       else
         logger.error ("Unable to retrieve replay: " +:+ str_exn e);;
         mret None).

(** The two messages of the loop, [str.format] already applied. *)
Definition not_found_msg (user_info : LadderUserInfo) : string :=
  "No '" +:+ format_id +:+ "' replays found for "
  +:+ lu_username user_info +:+ ", continuing to next".

Definition found_msg (user_info : LadderUserInfo) : string :=
  "Found '" +:+ format_id +:+ "' replay for " +:+ lu_username user_info.

(** The loop variables of [extract_replays]:
    [(replay_info_list, teams_found)]. *)
Definition LoopVars : Type := list (option ReplayInfo) * Z.

Definition extract_body (num_users_to_pull : Z)
    (vars : LoopVars) (user_info : LadderUserInfo) : Py (Flow LoopVars) :=
  let '(replay_info_list, teams_found) := vars in
  most_recent_replay_id ← _get_most_recent_replay_id (lu_username user_info);
  if PyStr.falsy most_recent_replay_id then
    logger.info (not_found_msg user_info);;
    mret (Continue (replay_info_list, teams_found))
  else
    logger.info (found_msg user_info);;
    replay_info ← _get_replay_info user_info most_recent_replay_id;
    let replay_info_list := replay_info_list ++ [replay_info] in
    let teams_found := teams_found + 1 in
    if teams_found =? num_users_to_pull
    then mret (Break (replay_info_list, teams_found))
    else mret (Continue (replay_info_list, teams_found)).

(** [not top_ladder_users] *)
Definition users_falsy (users : option (list LadderUserInfo)) : bool :=
  match users with
  | None | Some [] => true
  | Some (_ :: _) => false
  end.

Definition extract_replays (num_users_to_pull : Z)
  : Py (list (option ReplayInfo)) :=
  let num_users_to_pull := Z.min num_users_to_pull MAX_USERS in
  top_ladder_users ← get_users format_id;
  if users_falsy top_ladder_users then
    logger.warning "Could not retrieve ladder rankings, aborting...";;
    raise (LadderNotFoundException
             ("Could not retrieve ladder rankings for " +:+ format_id))
  else
    vars ← for_each (extract_body num_users_to_pull)
                    (default [] top_ladder_users) ([], 0);
    mret (fst vars).

(** The call without argument: [num_users_to_pull = MAX_USERS]. *)
Definition extract_replays_default : Py (list (option ReplayInfo)) :=
  extract_replays MAX_USERS.

(** *** Vocabulary for the statements below *)

Definition search_url (user_info : LadderUserInfo) : string :=
  REPLAY_SEARCH_BASE_URL +:+ lu_username user_info.

Definition replay_url (replay_id : string) : string :=
  REPLAY_BASE_URL +:+ replay_id +:+ ".json".

(** The replay identifier the lookup finds for a ranked user, if any:
    the lookup returned a non-empty string. *)
Definition found_id (user_info : LadderUserInfo) : option string :=
  match outcome (_get_most_recent_replay_id (lu_username user_info)) with
  | Return s => if PyStr.falsy s then None else Some s
  | Raise _ => None
  end.

Definition has_replay (user_info : LadderUserInfo) : bool :=
  match found_id user_info with
  | Some _ => true
  | None => false
  end.

(** [e] is the list entry that belongs to ranked user [u]: a replay
    identifier was found for [u] and [_get_replay_info] returned [e]
    for it. *)
Definition entry_of (u : LadderUserInfo) (e : option ReplayInfo) : Prop :=
  exists replay_id,
    found_id u = Some replay_id /\
    outcome (_get_replay_info u replay_id) = Return e.

(** What the [try] body of [_get_replay_info] evaluates to. *)
Definition try_body (u : LadderUserInfo) (replay_id : string)
  : Outcome ReplayInfo :=
  match outcome (_get_replay_json_from_id replay_id) with
  | Raise e => Raise e
  | Return payload => build_replay_info u payload
  end.

(** The lookup as the specification words it: the anchors whose
    [href] contains the format identifier, the first of them, its
    [href] without the leading character. *)
Definition spec_is_match (t : Tag) : bool :=
  String.eqb (tag_name t) "a" &&
  match tag_get t "href" with
  | Some href => PyStr.contains format_id href
  | None => false
  end.

Definition spec_most_recent_replay_id (page : BeautifulSoup) : string :=
  match List.filter spec_is_match (descendants_of page) with
  | first :: _ => PyStr.drop_first (default "" (tag_get first "href"))
  | [] => ""
  end.

End ReplayHandler.

(** Every anchor of the page carries an [href] attribute. *)
Definition anchors_have_href (ts : list Tag) : Prop :=
  Forall (fun t => tag_name t = "a" -> is_Some (tag_get t "href")) ts.

(** The four keys [_get_replay_info] reads, in evaluation order. *)
Definition required_keys : list string := ["id"; "format"; "log"; "uploadtime"].

(** The same world with another ranking: the ladder retriever answers
    [users] for every format, the two fetch helpers are unchanged. *)
Definition with_ranking (w : World) (users : list LadderUserInfo) : World :=
  mkWorld (fun _ => Some users) (w_get_soup_from_url w) (w_get_response_from_url w).

(** The first required key that a payload dictionary lacks. *)
Definition first_missing_key (fields : gmap string json) : option string :=
  head (List.filter (fun k => match fields !! k with
                              | None => true
                              | Some _ => false
                              end) required_keys).

(** ** Sample runs *)

Module Samples.

Definition alice := mkLadderUserInfo "alice" 1500.
Definition bob := mkLadderUserInfo "bob" 1400.

Definition link (href : string) : Tag := mkTag "a" {[ "href" := href ]} [].
Definition page (links : list Tag) : BeautifulSoup :=
  mkTag "[document]" ∅ [mkTag "ul" ∅ (map (fun l => mkTag "li" ∅ [l]) links)].

Definition payload : json :=
  JObj (<["id" := JStr "r1"]> (<["format" := JStr "gen8ou"]>
       (<["log" := JStr "..."]> (<["uploadtime" := JNum 1000]> ∅)))).

Definition world_ok : World := {|
  w_get_users := fun _ => Some [alice; bob];
  w_get_soup_from_url := fun _ => Return (page [link "/gen8ou-3"; link "/gen8ou-2"]);
  w_get_response_from_url := fun _ => Return (Some (mkResponse true (Return payload)))
|}.

(** Sample values for the two constants of [utils.constants]. *)
Definition max_users : Z := 100.
Definition base_url : string := "https://replay.pokemonshowdown.com/".

Definition carol := mkLadderUserInfo "carol" 1300.
Definition dave := mkLadderUserInfo "dave" 1200.
Definition erin := mkLadderUserInfo "erin" 1100.

Definition answer (payload : json) : Outcome (option Response) :=
  Return (Some (mkResponse true (Return payload))).

(** The replay fetch fails in transport. *)
Definition world_fetch_down : World := {|
  w_get_users := fun _ => Some [alice; bob];
  w_get_soup_from_url := fun _ => Return (page [link "/gen8ou-3"]);
  w_get_response_from_url := fun _ => Raise (RequestException "connection reset")
|}.

(** The payload has no [log]. *)
Definition payload_without_log : json :=
  JObj (<["id" := JStr "r1"]> (<["format" := JStr "gen8ou"]>
       (<["uploadtime" := JNum 1000]> ∅))).

Definition world_missing_log : World := {|
  w_get_users := fun _ => Some [alice; bob];
  w_get_soup_from_url := fun _ => Return (page [link "/gen8ou-3"]);
  w_get_response_from_url := fun _ => answer payload_without_log
|}.

(** The ladder has no users. *)
Definition world_empty_ladder : World := {|
  w_get_users := fun _ => Some [];
  w_get_soup_from_url := fun _ => Return (page [link "/gen8ou-3"]);
  w_get_response_from_url := fun _ => answer payload
|}.

(** The replay fetch answers with nothing. *)
Definition world_empty_body : World := {|
  w_get_users := fun _ => Some [alice; bob];
  w_get_soup_from_url := fun _ => Return (page [link "/gen8ou-3"]);
  w_get_response_from_url := fun _ => Return None
|}.

(** The scenario of the specification: five ranked users, the second
    and the fourth without a matching replay. *)
Definition world_five_users : World := {|
  w_get_users := fun _ => Some [alice; bob; carol; dave; erin];
  w_get_soup_from_url := fun url =>
    if String.eqb url (REPLAY_SEARCH_BASE_URL +:+ "bob")
       || String.eqb url (REPLAY_SEARCH_BASE_URL +:+ "dave")
    then Return (page [link "/gen7ou-9"])
    else Return (page [link "/gen8vgc2020-7"; link "/gen8vgc2020-5"]);
  w_get_response_from_url := fun _ => answer payload
|}.

(** The replay endpoint answers with a JSON array. *)
Definition world_list_payload : World := {|
  w_get_users := fun _ => Some [alice; bob];
  w_get_soup_from_url := fun _ => Return (page [link "/gen8ou-3"]);
  w_get_response_from_url := fun _ => answer (JArr [JStr "r1"])
|}.

(** Parsing the body of the response raises a [KeyError]. *)
Definition world_json_key_error : World := {|
  w_get_users := fun _ => Some [alice; bob];
  w_get_soup_from_url := fun _ => Return (page [link "/gen8ou-3"]);
  w_get_response_from_url := fun _ =>
    Return (Some (mkResponse true (Raise (KeyError "status"))))
|}.

(** What [json()] raises on a body that is not JSON, the empty body
    included. *)
Definition json_decode_error : PyExn :=
  OtherException "Expecting value: line 1 column 1 (char 0)".

(** The replay endpoint answers with status 200 and an empty body: the
    response is truthy and its [json()] raises. *)
Definition world_blank_body : World := {|
  w_get_users := fun _ => Some [alice; bob];
  w_get_soup_from_url := fun _ => Return (page [link "/gen8ou-3"]);
  w_get_response_from_url := fun _ =>
    Return (Some (mkResponse true (Raise json_decode_error)))
|}.

(** A page whose first anchor has no [href]. *)
Definition page_named_anchor : BeautifulSoup :=
  mkTag "[document]" ∅ [mkTag "a" {[ "name" := "top" ]} []; link "/gen8ou-1"].

Definition world_named_anchor : World := {|
  w_get_users := fun _ => Some [alice];
  w_get_soup_from_url := fun _ => Return page_named_anchor;
  w_get_response_from_url := fun _ => Return (Some (mkResponse true (Return payload)))
|}.

(** The page of the specification's example: three matching links. *)
Definition world_three_links : World := {|
  w_get_users := fun _ => Some [alice];
  w_get_soup_from_url := fun _ => Return (page [link "/r3"; link "/r2"; link "/r1"]);
  w_get_response_from_url := fun _ => Return None
|}.

(** No link of the page matches the format. *)
Definition world_no_match : World := {|
  w_get_users := fun _ => Some [alice];
  w_get_soup_from_url := fun _ => Return (page [link "/gen7ou-1"]);
  w_get_response_from_url := fun _ => Return None
|}.

(** The search request itself fails. *)
Definition world_search_down : World := {|
  w_get_users := fun _ => Some [alice; bob];
  w_get_soup_from_url := fun _ => Raise (RequestException "timed out");
  w_get_response_from_url := fun _ => Return None
|}.

End Samples.


(** ** Reading traces *)

(** The URLs handed to [get_soup_from_url], in call order. *)
Definition soup_calls (tr : list Event) : list string :=
  omap (fun ev => match ev with CallGetSoup url => Some url | _ => None end) tr.

(** The URLs handed to [get_response_from_url], in call order. *)
Definition response_calls (tr : list Event) : list string :=
  omap (fun ev => match ev with CallGetResponse url => Some url | _ => None end) tr.

(** ** Laws of the effect layer *)

Section PyLaws.
Context {A B : Type}.
Implicit Types (m : Py A) (k : A -> Py B).

Lemma outcome_bind m k :
  outcome (m ≫= k) =
  match outcome m with
  | Return a => outcome (k a)
  | Raise e => Raise e
  end.
Proof.
  destruct m as [t [a|e]]; cbn; [|done]. by destruct (k a).
Qed.

Lemma trace_bind m k :
  trace (m ≫= k) =
  trace m ++ match outcome m with
             | Return a => trace (k a)
             | Raise _ => []
             end.
Proof.
  destruct m as [t [a|e]]; cbn; [|by rewrite app_nil_r]. by destruct (k a).
Qed.

Lemma outcome_try_except m (h : PyExn -> Py A) :
  outcome (try_except m h) =
  match outcome m with
  | Return a => Return a
  | Raise e => outcome (h e)
  end.
Proof.
  destruct m as [t [a|e]]; cbn; [done|]. by destruct (h e).
Qed.

Lemma trace_try_except m (h : PyExn -> Py A) :
  trace (try_except m h) =
  trace m ++ match outcome m with
             | Return _ => []
             | Raise e => trace (h e)
             end.
Proof.
  destruct m as [t [a|e]]; cbn; [by rewrite app_nil_r|]. by destruct (h e).
Qed.

Lemma bind_assoc {C} m k (k' : B -> Py C) :
  (m ≫= k) ≫= k' = m ≫= (fun a => k a ≫= k').
Proof.
  destruct m as [t [a|e]]; cbn; [|done].
  destruct (k a) as [t1 [b|e1]]; cbn; [|done].
  destruct (k' b) as [t2 r2]. by rewrite app_assoc.
Qed.

Lemma bind_ret_l (a : A) k : mret a ≫= k = k a.
Proof. cbn. by destruct (k a). Qed.

End PyLaws.

(** ** Substring test *)

Lemma prefix_app (p rest : string) : String.prefix p (p +:+ rest) = true.
Proof.
  induction p as [|c p IH]; [by destruct rest|].
  change (String c p +:+ rest) with (String c (p +:+ rest)). cbn.
  destruct (Ascii.ascii_dec c c); [done|congruence].
Qed.

Lemma prefix_split (p s : string) :
  String.prefix p s = true -> exists rest, s = p +:+ rest.
Proof.
  revert s. induction p as [|c p IH]; intros s H; [by exists s|].
  destruct s as [|d s]; [done|]. cbn in H.
  destruct (Ascii.ascii_dec c d) as [->|]; [|done].
  destruct (IH _ H) as [rest ->]. by exists rest.
Qed.

Lemma contains_prefix (p s : string) :
  String.prefix p s = true -> PyStr.contains p s = true.
Proof. intros H. destruct s; cbn [PyStr.contains]; by rewrite H. Qed.

(** [PyStr.contains] decides the substring relation. *)
Lemma contains_spec (needle hay : string) :
  PyStr.contains needle hay = true <->
  exists before after, hay = before +:+ needle +:+ after.
Proof.
  split.
  - induction hay as [|c hay IH]; intros H.
    + destruct needle; [by exists "", ""|done].
    + cbn [PyStr.contains] in H. apply orb_true_iff in H as [H|H].
      * apply prefix_split in H as [rest H]. by exists "", rest.
      * destruct (IH H) as (b & a & ->). by exists (String c b), a.
  - intros (before & after & ->).
    induction before as [|c b IH].
    + change ("" +:+ needle +:+ after) with (needle +:+ after).
      apply contains_prefix, prefix_app.
    + change (String c b +:+ needle +:+ after)
        with (String c (b +:+ needle +:+ after)).
      cbn. rewrite IH. apply orb_true_r.
Qed.

(** ** The lookup: [_get_most_recent_replay_id] *)

Section Lookup.
Variable w : World.
Variable format_id : string.

Local Abbreviation lookup := (_get_most_recent_replay_id w format_id).
Local Abbreviation first_or_empty ids :=
  (match ids with first :: _ => first | [] => "" end).

(** The function, case by case on what the collaborator answers. *)
Lemma lookup_unfold (username : string) :
  let url := REPLAY_SEARCH_BASE_URL +:+ username in
  let warn e := LogWarning ("Unable to reach server for replays: " +:+ str_exn e) in
  lookup username =
  match w_get_soup_from_url w url with
  | Raise e => ([CallGetSoup url; warn e], Return "")
  | Return soup =>
      match replay_ids format_id soup with
      | Raise e => ([CallGetSoup url; warn e], Return "")
      | Return ids => ([CallGetSoup url], Return (first_or_empty ids))
      end
  end.
Proof.
  cbv zeta. unfold _get_most_recent_replay_id, get_soup_from_url.
  destruct (w_get_soup_from_url w _) as [soup|e]; cbn; [|done].
  by destruct (replay_ids format_id soup) as [ids|e].
Qed.

Lemma lookup_returns (username : string) :
  exists s, outcome (lookup username) = Return s.
Proof.
  rewrite lookup_unfold. cbv zeta.
  destruct (w_get_soup_from_url w _) as [soup|e]; [|by eexists].
  destruct (replay_ids format_id soup); by eexists.
Qed.

Lemma lookup_soup_calls (username : string) :
  soup_calls (trace (lookup username)) = [REPLAY_SEARCH_BASE_URL +:+ username].
Proof.
  rewrite lookup_unfold. cbv zeta.
  destruct (w_get_soup_from_url w _) as [soup|e]; [|done].
  by destruct (replay_ids format_id soup).
Qed.

Lemma lookup_response_calls (username : string) :
  response_calls (trace (lookup username)) = [].
Proof.
  rewrite lookup_unfold. cbv zeta.
  destruct (w_get_soup_from_url w _) as [soup|e]; [|done].
  by destruct (replay_ids format_id soup).
Qed.

(** On a list of elements whose anchors all have an [href], the scan
    of [find_all] is the plain filter. *)
Lemma filter_raising_is_filter (ts : list Tag) :
  anchors_have_href ts ->
  filter_raising (is_format_link format_id) ts =
  Return (List.filter (spec_is_match format_id) ts).
Proof.
  induction 1 as [|t ts Ht _ IH]; [done|].
  cbn [filter_raising List.filter]. rewrite IH.
  unfold is_format_link, spec_is_match.
  destruct (String.eqb_spec (tag_name t) "a") as [Ha|_]; [|done].
  destruct (Ht Ha) as [href ->]. done.
Qed.

Lemma map_raising_href_tail (links : list Tag) :
  Forall (fun t => spec_is_match format_id t = true) links ->
  map_raising href_tail links =
  Return (map (fun t => PyStr.drop_first (default "" (tag_get t "href"))) links).
Proof.
  induction 1 as [|t links Ht _ IH]; [done|].
  cbn [map_raising map]. rewrite IH. unfold href_tail.
  unfold spec_is_match in Ht. apply andb_true_iff in Ht as [_ Ht].
  by destruct (tag_get t "href").
Qed.

Lemma replay_ids_is_filter (soup : BeautifulSoup) :
  anchors_have_href (descendants_of soup) ->
  replay_ids format_id soup =
  Return (map (fun t => PyStr.drop_first (default "" (tag_get t "href")))
              (List.filter (spec_is_match format_id) (descendants_of soup))).
Proof.
  intros H. unfold replay_ids, find_all.
  rewrite (filter_raising_is_filter _ H).
  apply map_raising_href_tail, Forall_forall.
  intros t Ht. apply list_elem_of_In, filter_In in Ht. tauto.
Qed.

(** An anchor without [href] anywhere on the page makes the scan raise. *)
Lemma filter_raising_bare_anchor (ts : list Tag) :
  ~ anchors_have_href ts ->
  exists e, filter_raising (is_format_link format_id) ts = Raise e.
Proof.
  induction ts as [|t ts IH]; intros H.
  - destruct H. constructor.
  - cbn [filter_raising]. unfold is_format_link at 1.
    destruct (String.eqb_spec (tag_name t) "a") as [Ha|Hn].
    + destruct (tag_get t "href") as [href|] eqn:Hh; [|by eexists].
      destruct IH as [e ->]; [|by eexists].
      intros Hts. apply H. constructor; [by rewrite Hh|done].
    + destruct IH as [e ->]; [|by eexists].
      intros Hts. apply H. by constructor.
Qed.

End Lookup.

(** ** The fetch: [_get_replay_json_from_id] and [_get_replay_info] *)

Section Fetch.
Variable REPLAY_BASE_URL : string.
Variable w : World.

Local Abbreviation get_json := (_get_replay_json_from_id REPLAY_BASE_URL w).
Local Abbreviation get_info := (_get_replay_info REPLAY_BASE_URL w).
Local Abbreviation url_of := (replay_url REPLAY_BASE_URL).
Local Abbreviation try_body := (try_body REPLAY_BASE_URL w).

Lemma get_json_unfold (replay_id : string) :
  get_json replay_id =
  ([CallGetResponse (url_of replay_id)],
   match w_get_response_from_url w (url_of replay_id) with
   | Raise e => Raise e
   | Return res =>
       if response_falsy res then Return (JObj ∅)
       else match res with
            | Some r => resp_json r
            | None => Return (JObj ∅)
            end
   end).
Proof.
  unfold _get_replay_json_from_id, get_response_from_url, replay_url.
  destruct (w_get_response_from_url w _) as [[r|]|e]; cbn.
  - destruct (resp_ok r); cbn; [|done].
    destruct (resp_json r) as [payload|e]; [done|].
    by destruct (is_RequestException e).
  - done.
  - by destruct (is_RequestException e).
Qed.

Lemma get_info_unfold (u : LadderUserInfo) (replay_id : string) :
  get_info u replay_id =
  match try_body u replay_id with
  | Return info => ([CallGetResponse (url_of replay_id)], Return (Some info))
  | Raise e =>
      if is_KeyError e
      then ([CallGetResponse (url_of replay_id);
             LogError "Replay key not found"], Raise e)
      else ([CallGetResponse (url_of replay_id);
             LogError ("Unable to retrieve replay: " +:+ str_exn e)],
            Return None)
  end.
Proof.
  unfold try_body, _get_replay_info. rewrite get_json_unfold.
  cbn [outcome snd].
  match goal with |- context [([_], ?o)] => destruct o as [payload|e] end; cbn.
  - destruct (build_replay_info u payload) as [info|e]; cbn; [done|].
    by destruct (is_KeyError e).
  - by destruct (is_KeyError e).
Qed.

Lemma get_info_raises_KeyError u replay_id e :
  outcome (get_info u replay_id) = Raise e ->
  is_KeyError e = true /\ try_body u replay_id = Raise e.
Proof.
  rewrite get_info_unfold.
  destruct (try_body u replay_id) as [info|e']; [done|].
  destruct (is_KeyError e') eqn:E; [|done].
  cbn. by intros [= ->].
Qed.

Lemma get_info_soup_calls u replay_id :
  soup_calls (trace (get_info u replay_id)) = [].
Proof.
  rewrite get_info_unfold.
  destruct (try_body u replay_id) as [|e]; [done|]. by destruct (is_KeyError e).
Qed.

Lemma get_info_response_calls u replay_id :
  response_calls (trace (get_info u replay_id)) = [url_of replay_id].
Proof.
  rewrite get_info_unfold.
  destruct (try_body u replay_id) as [|e]; [done|]. by destruct (is_KeyError e).
Qed.

(** Record construction on a dictionary: the first missing key, in
    evaluation order, is the one the [KeyError] names. *)
Lemma build_on_dict u (fields : gmap string json) :
  build_replay_info u (JObj fields) =
  match first_missing_key fields with
  | Some k => Raise (KeyError k)
  | None =>
      Return (mkReplayInfo (default JNull (fields !! "id"))
                           (lu_username u) (lu_rating u)
                           (default JNull (fields !! "format"))
                           (default JNull (fields !! "log"))
                           (default JNull (fields !! "uploadtime")))
  end.
Proof.
  unfold build_replay_info, first_missing_key, subscript. cbn.
  destruct (fields !! "id"); [|done].
  destruct (fields !! "format"); [|done].
  destruct (fields !! "log"); [|done].
  by destruct (fields !! "uploadtime").
Qed.

Lemma first_missing_key_Some fields k :
  first_missing_key fields = Some k ->
  k ∈ required_keys /\ fields !! k = None.
Proof.
  unfold first_missing_key. intros H.
  apply head_Some_elem_of, list_elem_of_In, filter_In in H as [Hk H].
  split; [by apply list_elem_of_In|]. by destruct (fields !! k).
Qed.

Lemma first_missing_key_exists fields k :
  k ∈ required_keys -> fields !! k = None ->
  exists k', first_missing_key fields = Some k'.
Proof.
  intros Hk Hnone. unfold first_missing_key.
  destruct (List.filter _ required_keys) as [|k' ks] eqn:E; [|by eexists].
  assert (In k []) as []. rewrite <- E. apply filter_In.
  split; [by apply list_elem_of_In|]. by rewrite Hnone.
Qed.

(** Anything that is not a dictionary makes the subscript raise
    [TypeError], never [KeyError]. *)
Lemma build_KeyError_dict u payload k :
  build_replay_info u payload = Raise (KeyError k) ->
  exists fields, payload = JObj fields /\ first_missing_key fields = Some k.
Proof.
  destruct payload as [| | | | |fields]; try discriminate.
  rewrite build_on_dict.
  destruct (first_missing_key fields) as [k'|] eqn:E; [|done].
  intros [= ->]. by exists fields.
Qed.

End Fetch.

(** ** The loop of [extract_replays] *)

Lemma for_each_cons {U S} (body : S -> U -> Py (Flow S)) u rest s :
  for_each body (u :: rest) s =
  body s u ≫= (fun fl => match fl with
                         | Continue s' => for_each body rest s'
                         | Break s' => mret s'
                         end).
Proof. done. Qed.

Lemma soup_calls_app t1 t2 : soup_calls (t1 ++ t2) = soup_calls t1 ++ soup_calls t2.
Proof. apply omap_app. Qed.

Lemma response_calls_app t1 t2 :
  response_calls (t1 ++ t2) = response_calls t1 ++ response_calls t2.
Proof. apply omap_app. Qed.

Section Loop.
Variable REPLAY_BASE_URL : string.
Variable w : World.
Variable format_id : string.

Local Abbreviation lookup := (_get_most_recent_replay_id w format_id).
Local Abbreviation get_info := (_get_replay_info REPLAY_BASE_URL w).
Local Abbreviation body := (extract_body REPLAY_BASE_URL w format_id).
Local Abbreviation found_id := (found_id w format_id).
Local Abbreviation has_replay := (has_replay w format_id).
Local Abbreviation entry_of := (entry_of REPLAY_BASE_URL w format_id).
Local Abbreviation url_of := (replay_url REPLAY_BASE_URL).

Lemma found_id_Some u replay_id :
  found_id u = Some replay_id ->
  outcome (lookup (lu_username u)) = Return replay_id /\
  PyStr.falsy replay_id = false.
Proof.
  unfold found_id. destruct (outcome _) as [s|]; [|done].
  destruct (PyStr.falsy s) eqn:E; [done|]. by intros [= ->].
Qed.

Lemma found_id_None u :
  found_id u = None -> outcome (lookup (lu_username u)) = Return "".
Proof.
  unfold found_id. destruct (lookup_returns w format_id (lu_username u)) as [s ->].
  by destruct s.
Qed.

(** One iteration, by what the lookup found. *)
Lemma body_unfold num acc found u :
  body num (acc, found) u =
  match found_id u with
  | None =>
      (trace (lookup (lu_username u)) ++ [LogInfo (not_found_msg format_id u)],
       Return (Continue (acc, found)))
  | Some replay_id =>
      (trace (lookup (lu_username u)) ++
         LogInfo (found_msg format_id u) :: trace (get_info u replay_id),
       match outcome (get_info u replay_id) with
       | Return entry =>
           Return (if found + 1 =? num
                   then Break (acc ++ [entry], found + 1)
                   else Continue (acc ++ [entry], found + 1))
       | Raise e => Raise e
       end)
  end.
Proof.
  unfold extract_body, found_id.
  destruct (lookup_returns w format_id (lu_username u)) as [s Hs].
  destruct (lookup (lu_username u)) as [t o]. cbn in Hs. subst o. cbn.
  destruct (PyStr.falsy s); cbn; [done|].
  destruct (get_info u s) as [t' [entry|e]]; cbn; [|done].
  destruct (found + 1 =? num); cbn; by rewrite app_nil_r.
Qed.

Lemma body_soup_calls num vars u :
  soup_calls (trace (body num vars u)) = [search_url u].
Proof.
  destruct vars as [acc found]. rewrite body_unfold.
  destruct (found_id u); cbn [trace fst]; rewrite soup_calls_app, lookup_soup_calls.
  - change (LogInfo ?m :: ?t) with ([LogInfo m] ++ t).
    by rewrite soup_calls_app, get_info_soup_calls.
  - done.
Qed.

Lemma body_response_calls num vars u :
  response_calls (trace (body num vars u)) =
  match found_id u with
  | Some replay_id => [url_of replay_id]
  | None => []
  end.
Proof.
  destruct vars as [acc found]. rewrite body_unfold.
  destruct (found_id u); cbn [trace fst];
    rewrite response_calls_app, lookup_response_calls.
  - change (LogInfo ?m :: ?t) with ([LogInfo m] ++ t).
    by rewrite response_calls_app, get_info_response_calls.
  - done.
Qed.

(** What a run of the loop that returns has done: it went through a
    prefix [seen] of the users, appended one entry per user of the
    prefix with a replay identifier, in order, and stopped early only
    on the user that brought the count to [num]. *)
Lemma loop_returns num users acc found l c :
  outcome (for_each (body num) users (acc, found)) = Return (l, c) ->
  exists seen unseen new,
    users = seen ++ unseen /\
    l = acc ++ new /\
    c = found + Z.of_nat (length new) /\
    Forall2 entry_of (List.filter has_replay seen) new /\
    soup_calls (trace (for_each (body num) users (acc, found)))
      = map search_url seen /\
    response_calls (trace (for_each (body num) users (acc, found)))
      = omap (fun u => url_of <$> found_id u) seen /\
    (unseen = [] \/
     c = num /\ exists before u, seen = before ++ [u] /\ has_replay u = true).
Proof.
  revert acc found.
  induction users as [|u rest IH]; intros acc found H.
  - injection H as <- <-. exists [], [], [].
    rewrite (app_nil_r acc), Z.add_0_r. repeat split; auto.
  - rewrite for_each_cons in H |- *.
    rewrite outcome_bind in H.
    rewrite trace_bind, soup_calls_app, body_soup_calls,
      response_calls_app, body_response_calls.
    rewrite body_unfold in H |- *.
    destruct (found_id u) as [replay_id|] eqn:Hid; cbn [outcome trace fst snd] in H |- *.
    + assert (has_replay u = true) as Hu by (unfold has_replay; by rewrite Hid).
      destruct (outcome (get_info u replay_id)) as [entry|e] eqn:Hinfo; [|done].
      destruct (found + 1 =? num) eqn:Hnum.
      * injection H as <- <-. apply Z.eqb_eq in Hnum.
        exists [u], rest, [entry].
        cbn [List.filter map app length omap list_omap]. rewrite Hu, Hid.
        repeat split; auto.
        -- constructor; [by exists replay_id|constructor].
        -- right. split; [lia|]. by exists [], u.
      * destruct (IH _ _ H)
          as (seen & unseen & new & -> & -> & -> & Hall & Htr & Hrs & Hend).
        exists (u :: seen), unseen, (entry :: new).
        cbn [List.filter map app length omap list_omap].
        rewrite Hu, Hid, Htr, Hrs, <- app_assoc.
        repeat split; auto.
        -- lia.
        -- constructor; [by exists replay_id|done].
        -- destruct Hend as [->|[Hc (before & u' & -> & Hu')]]; [by left|].
           right. split; [lia|]. by exists (u :: before), u'.
    + assert (has_replay u = false) as Hu by (unfold has_replay; by rewrite Hid).
      destruct (IH _ _ H)
        as (seen & unseen & new & -> & -> & -> & Hall & Htr & Hrs & Hend).
      exists (u :: seen), unseen, new.
      cbn [List.filter map app length omap list_omap].
      rewrite Hu, Hid, Htr, Hrs. repeat split; auto.
      destruct Hend as [->|[Hc (before & u' & -> & Hu')]]; [by left|].
      right. split; [done|]. by exists (u :: before), u'.
Qed.

(** A run of the loop raises only what [_get_replay_info] raised for
    one of the users with a replay identifier. *)
Lemma loop_raises num users vars e :
  outcome (for_each (body num) users vars) = Raise e ->
  exists u replay_id,
    u ∈ users /\ found_id u = Some replay_id /\
    outcome (get_info u replay_id) = Raise e.
Proof.
  revert vars. induction users as [|u rest IH]; intros [acc found] H; [done|].
  rewrite for_each_cons, outcome_bind, body_unfold in H.
  destruct (found_id u) as [replay_id|] eqn:Hid; cbn [outcome snd] in H.
  - destruct (outcome (get_info u replay_id)) as [entry|e'] eqn:Hinfo.
    + destruct (found + 1 =? num); [done|].
      destruct (IH _ H) as (u' & id' & Hin & Hid' & Hraise).
      exists u', id'. split; [by right|done].
    + injection H as ->. exists u, replay_id. split; [by left|done].
  - destruct (IH _ H) as (u' & id' & Hin & Hid' & Hraise).
    exists u', id'. split; [by right|done].
Qed.

(** While the count stays below [num], a run that returns ends with a
    count of at most [num]. *)
Lemma loop_count_bound num users acc found l c :
  found < num ->
  outcome (for_each (body num) users (acc, found)) = Return (l, c) ->
  c <= num.
Proof.
  revert acc found. induction users as [|u rest IH]; intros acc found Hlt H.
  - injection H as <- <-. lia.
  - rewrite for_each_cons, outcome_bind, body_unfold in H.
    destruct (found_id u) as [replay_id|]; cbn [outcome snd] in H; [|by eapply IH].
    destruct (outcome (get_info u replay_id)) as [entry|e]; [|done].
    destruct (found + 1 =? num) eqn:Hnum.
    + injection H as <- <-. apply Z.eqb_eq in Hnum. lia.
    + apply Z.eqb_neq in Hnum. eapply IH; [|done]. lia.
Qed.

(** Once the count has reached [num] without a [break], no later
    comparison succeeds: the value of [num] no longer matters. *)
Lemma loop_past_count num num' users acc found :
  num <= found -> num' <= found ->
  for_each (body num) users (acc, found) =
  for_each (body num') users (acc, found).
Proof.
  revert acc found. induction users as [|u rest IH]; intros acc found H H'; [done|].
  rewrite !for_each_cons, !body_unfold.
  destruct (found_id u) as [replay_id|].
  - destruct (get_info u replay_id) as [t [entry|e]];
      cbn [outcome trace fst snd]; [|done].
    destruct (Z.eqb_spec (found + 1) num); [lia|].
    destruct (Z.eqb_spec (found + 1) num'); [lia|].
    cbn. rewrite (IH (acc ++ [entry]) (found + 1)) by lia. done.
  - cbn. by rewrite (IH _ _ H H').
Qed.

(** A replay fetch answered with nothing ends the loop with
    [KeyError('id')], whichever user it was issued for. *)
Lemma get_info_falsy_response u replay_id res :
  w_get_response_from_url w (url_of replay_id) = Return res ->
  response_falsy res = true ->
  get_info u replay_id =
  ([CallGetResponse (url_of replay_id); LogError "Replay key not found"],
   Raise (KeyError "id")).
Proof.
  intros Hres Hfalsy. rewrite get_info_unfold. unfold try_body.
  rewrite get_json_unfold, Hres, Hfalsy. done.
Qed.

Lemma loop_falsy_response num users vars url res :
  url ∈ response_calls (trace (for_each (body num) users vars)) ->
  w_get_response_from_url w url = Return res ->
  response_falsy res = true ->
  outcome (for_each (body num) users vars) = Raise (KeyError "id").
Proof.
  intros Hin Hres Hfalsy. revert vars Hin.
  induction users as [|u rest IH]; intros [acc found] Hin.
  - by apply elem_of_nil in Hin.
  - rewrite for_each_cons in Hin |- *.
    rewrite trace_bind, response_calls_app, body_response_calls in Hin.
    rewrite outcome_bind, body_unfold.
    destruct (found_id u) as [replay_id|] eqn:Hid; cbn [outcome snd] in Hin |- *.
    + apply elem_of_app in Hin as [Hin|Hin].
      * apply list_elem_of_singleton in Hin as ->.
        by rewrite (get_info_falsy_response u _ _ Hres Hfalsy).
      * rewrite body_unfold, Hid in Hin. cbn [outcome snd] in Hin.
        destruct (outcome (get_info u replay_id)) as [entry|e];
          [|by apply elem_of_nil in Hin].
        destruct (found + 1 =? num); [by apply elem_of_nil in Hin|].
        by apply IH.
    + apply elem_of_app in Hin as [Hin|Hin]; [by apply elem_of_nil in Hin|].
      rewrite body_unfold, Hid in Hin. by apply IH.
Qed.

End Loop.

(** ** [extract_replays] *)

Section Extract.
Variable MAX_USERS : Z.
Variable REPLAY_BASE_URL : string.
Variable w : World.
Variable format_id : string.

Local Abbreviation body := (extract_body REPLAY_BASE_URL w format_id).
Local Abbreviation extract := (extract_replays MAX_USERS REPLAY_BASE_URL w format_id).
Local Abbreviation not_found :=
  (LadderNotFoundException ("Could not retrieve ladder rankings for " +:+ format_id)).

Lemma extract_unfold n :
  extract n =
  if users_falsy (w_get_users w format_id) then
    ([CallGetUsers format_id;
      LogWarning "Could not retrieve ladder rankings, aborting..."],
     Raise not_found)
  else
    let run := for_each (body (Z.min n MAX_USERS))
                        (default [] (w_get_users w format_id)) ([], 0) in
    (CallGetUsers format_id :: trace run,
     match outcome run with
     | Return vars => Return (fst vars)
     | Raise e => Raise e
     end).
Proof.
  unfold extract_replays, get_users.
  cbn. destruct (users_falsy (w_get_users w format_id)); [done|].
  destruct (for_each _ _ _) as [t [vars|e]]; cbn; [|done]. by rewrite app_nil_r.
Qed.

Lemma users_truthy (users : option (list LadderUserInfo)) :
  users_falsy users = false ->
  exists u rest, users = Some (u :: rest).
Proof. destruct users as [[|u rest]|]; [done| |done]. by exists u, rest. Qed.

End Extract.

(** Once the clamped count is not positive, its value is irrelevant:
    the comparison with the found-count never succeeds. *)
Lemma extract_clamp_nonpositive MAX MAX' REPLAY_BASE_URL w format_id n n' :
  Z.min n MAX <= 0 -> Z.min n' MAX' <= 0 ->
  extract_replays MAX REPLAY_BASE_URL w format_id n =
  extract_replays MAX' REPLAY_BASE_URL w format_id n'.
Proof.
  intros H H'. rewrite !extract_unfold.
  destruct (users_falsy _); [done|]. cbv zeta.
  by rewrite (loop_past_count _ _ _ (Z.min n MAX) (Z.min n' MAX')).
Qed.

(** With a positive clamped count, the list is no longer than it. *)
Lemma extract_length_bound MAX REPLAY_BASE_URL w format_id n l :
  0 < Z.min n MAX ->
  outcome (extract_replays MAX REPLAY_BASE_URL w format_id n) = Return l ->
  Z.of_nat (length l) <= Z.min n MAX.
Proof.
  intros Hpos. rewrite extract_unfold.
  destruct (users_falsy _); [done|]. cbv zeta. cbn [outcome snd].
  destruct (outcome (for_each _ _ _)) as [[l' c]|e] eqn:Hrun; [|done].
  intros [= <-]. cbn [fst].
  pose proof (loop_count_bound _ _ _ _ _ _ _ _ _ Hpos Hrun) as Hc.
  apply loop_returns in Hrun as (seen & unseen & new & _ & -> & -> & _).
  cbn [app]. lia.
Qed.

(** * The extraction workflow, property by property *)

(** C5. Clamp law: [extract_replays N] runs its loop with the count
    [min(N, MAX_USERS)].  A request and its clamped value give the same
    run; any request above [MAX_USERS] gives the run of the default
    call; with a non-empty ranking the call is the loop run with count
    [min(N, MAX_USERS)]; and whatever [N] is, the call reaches the
    ranking request, so clamping itself raises nothing. *)
Theorem clamp_law MAX_USERS REPLAY_BASE_URL w format_id :
  let extract := extract_replays MAX_USERS REPLAY_BASE_URL w format_id in
  (forall n, extract n = extract (Z.min n MAX_USERS)) /\
  (forall n, MAX_USERS < n ->
     Z.min n MAX_USERS = MAX_USERS /\
     extract n = extract_replays_default MAX_USERS REPLAY_BASE_URL w format_id) /\
  (forall n u rest,
     w_get_users w format_id = Some (u :: rest) ->
     let run := for_each (extract_body REPLAY_BASE_URL w format_id
                                       (Z.min n MAX_USERS))
                         (u :: rest) ([], 0) in
     trace (extract n) = CallGetUsers format_id :: trace run /\
     outcome (extract n) = match outcome run with
                           | Return vars => Return (fst vars)
                           | Raise e => Raise e
                           end) /\
  (forall n, exists t, trace (extract n) = CallGetUsers format_id :: t).
Proof.
  cbv zeta. repeat split.
  - intros n. unfold extract_replays.
    by rewrite <- Z.min_assoc, Z.min_id.
  - lia.
  - unfold extract_replays_default, extract_replays.
    by rewrite Z.min_r, Z.min_id by lia.
  - rewrite extract_unfold, H. done.
  - rewrite extract_unfold, H. done.
  - intros n. rewrite extract_unfold.
    destruct (users_falsy _); by eexists.
Qed.

Lemma clamp_law_witness :
  extract_replays Samples.max_users Samples.base_url Samples.world_ok "gen8ou" 500
  = extract_replays_default Samples.max_users Samples.base_url Samples.world_ok "gen8ou"
  /\ trace (extract_replays Samples.max_users Samples.base_url
                            Samples.world_ok "gen8ou" 1)
     = CallGetUsers "gen8ou"
       :: trace (for_each (extract_body Samples.base_url Samples.world_ok "gen8ou" 1)
                          [Samples.alice; Samples.bob] ([], 0)).
Proof.
  pose proof (clamp_law Samples.max_users Samples.base_url Samples.world_ok "gen8ou")
    as (_ & Habove & Hloop & _).
  split.
  - apply (Habove 500). unfold Samples.max_users. lia.
  - apply (Hloop 1 Samples.alice [Samples.bob]). reflexivity.
Defined.

(** C6. When the ladder retriever returns [None] or an empty list,
    [extract_replays] requests nothing else, logs the warning and
    raises [LadderNotFoundException]: no list is returned. *)
Theorem empty_ranking_is_fatal MAX_USERS REPLAY_BASE_URL w format_id n :
  w_get_users w format_id = None \/ w_get_users w format_id = Some [] ->
  extract_replays MAX_USERS REPLAY_BASE_URL w format_id n =
  ([CallGetUsers format_id;
    LogWarning "Could not retrieve ladder rankings, aborting..."],
   Raise (LadderNotFoundException
            ("Could not retrieve ladder rankings for " +:+ format_id))).
Proof.
  intros H. rewrite extract_unfold. by destruct H as [-> | ->].
Qed.

Lemma empty_ranking_is_fatal_witness :
  outcome (extract_replays Samples.max_users Samples.base_url
                           Samples.world_empty_ladder "gen8ou" 5)
  = Raise (LadderNotFoundException "Could not retrieve ladder rankings for gen8ou").
Proof.
  rewrite (empty_ranking_is_fatal Samples.max_users Samples.base_url
             Samples.world_empty_ladder "gen8ou" 5); [reflexivity|].
  right. reflexivity.
Defined.

(** C7. When the fetched payload is a dictionary that lacks one of the
    keys [id], [format], [log], [uploadtime], [_get_replay_info] logs
    "Replay key not found" and re-raises the [KeyError] of the first
    missing key, in the order the constructor arguments are evaluated;
    it returns no [ReplayInfo]. *)
Theorem missing_key_is_reraised REPLAY_BASE_URL w u replay_id fields missing :
  outcome (_get_replay_json_from_id REPLAY_BASE_URL w replay_id)
    = Return (JObj fields) ->
  missing ∈ required_keys ->
  fields !! missing = None ->
  exists key,
    first_missing_key fields = Some key /\
    key ∈ required_keys /\
    fields !! key = None /\
    _get_replay_info REPLAY_BASE_URL w u replay_id =
    ([CallGetResponse (replay_url REPLAY_BASE_URL replay_id);
      LogError "Replay key not found"],
     Raise (KeyError key)).
Proof.
  intros Hjson Hin Hnone.
  destruct (first_missing_key_exists fields missing Hin Hnone) as [key Hkey].
  destruct (first_missing_key_Some _ _ Hkey) as [Hreq Hmiss].
  exists key. repeat split; try done.
  rewrite get_info_unfold. unfold try_body.
  by rewrite Hjson, build_on_dict, Hkey.
Qed.

Lemma missing_key_is_reraised_witness :
  exists key,
    first_missing_key (<["id" := JStr "r1"]> (<["format" := JStr "gen8ou"]>
                      (<["uploadtime" := JNum 1000]> ∅))) = Some key /\
    key ∈ required_keys /\
    (<["id" := JStr "r1"]> (<["format" := JStr "gen8ou"]>
       (<["uploadtime" := JNum 1000]> ∅)) : gmap string json) !! key = None /\
    _get_replay_info Samples.base_url Samples.world_missing_log
                     Samples.alice "gen8ou-3" =
    ([CallGetResponse (replay_url Samples.base_url "gen8ou-3");
      LogError "Replay key not found"],
     Raise (KeyError key)).
Proof.
  apply (missing_key_is_reraised Samples.base_url Samples.world_missing_log
           Samples.alice "gen8ou-3" _ "log").
  - reflexivity.
  - unfold required_keys. repeat constructor.
  - reflexivity.
Defined.

(** The missing field of the example is the one the error names. *)
Example missing_log_names_log :
  outcome (_get_replay_info Samples.base_url Samples.world_missing_log
                            Samples.alice "gen8ou-3")
  = Raise (KeyError "log").
Proof. vm_compute. reflexivity. Qed.

(** The round trip of the specification: payload and user give the
    record field by field. *)
Example round_trip :
  outcome (_get_replay_info Samples.base_url Samples.world_ok
                            Samples.alice "r1")
  = Return (Some (mkReplayInfo (JStr "r1") "alice" 1500 (JStr "gen8ou")
                               (JStr "...") (JNum 1000))).
Proof. vm_compute. reflexivity. Qed.

(** The scan of [find_all], when it returns, returns the anchors whose
    [href] contains the format identifier. *)
Lemma filter_raising_Return format_id ts links :
  filter_raising (is_format_link format_id) ts = Return links ->
  links = List.filter (spec_is_match format_id) ts.
Proof.
  revert links. induction ts as [|t ts IH]; intros links; cbn [filter_raising List.filter].
  - by intros [= <-].
  - unfold is_format_link at 1, spec_is_match at 1.
    destruct (String.eqb (tag_name t) "a"); cbn [andb].
    + destruct (tag_get t "href") as [href|]; [|done].
      destruct (filter_raising _ ts) as [keep|]; [|done].
      intros [= <-]. by rewrite (IH keep).
    + destruct (filter_raising _ ts) as [keep|]; [|done].
      intros [= <-]. by rewrite (IH keep).
Qed.

(** C8 (the code at the failing input).  The page has an anchor without
    [href] before a link that matches the format.  The first matching
    link is [/gen8ou-1], so the lookup should return [gen8ou-1]; but
    the predicate raises [TypeError] on the anchor without [href], the
    catch-all handler logs it as an unreachable server, and the lookup
    returns the empty string. *)
Theorem lookup_bare_anchor_returns_empty :
  w_get_soup_from_url Samples.world_named_anchor
    (REPLAY_SEARCH_BASE_URL +:+ "alice") = Return Samples.page_named_anchor /\
  spec_most_recent_replay_id "gen8ou" Samples.page_named_anchor = "gen8ou-1" /\
  _get_most_recent_replay_id Samples.world_named_anchor "gen8ou" "alice" =
  ([CallGetSoup (REPLAY_SEARCH_BASE_URL +:+ "alice");
    LogWarning ("Unable to reach server for replays: "
                +:+ "argument of type 'NoneType' is not iterable")],
   Return "").
Proof. vm_compute. done. Qed.

(** X13.  On every search page whose anchors all carry an
    [href], the lookup returns what [spec_most_recent_replay_id]
    describes: of the anchors whose [href] contains the format
    identifier, in document order, the first one's [href] without its
    leading character, or the empty string when there is none; nothing
    is re-sorted, and the only effect is the search request. *)
Theorem lookup_first_match w format_id username page :
  w_get_soup_from_url w (REPLAY_SEARCH_BASE_URL +:+ username) = Return page ->
  anchors_have_href (descendants_of page) ->
  _get_most_recent_replay_id w format_id username =
  ([CallGetSoup (REPLAY_SEARCH_BASE_URL +:+ username)],
   Return (spec_most_recent_replay_id format_id page)).
Proof.
  intros Hpage Hhref. rewrite lookup_unfold. cbv zeta.
  rewrite Hpage, (replay_ids_is_filter _ _ Hhref).
  unfold spec_most_recent_replay_id.
  by destruct (List.filter _ _).
Qed.

Lemma lookup_first_match_witness :
  _get_most_recent_replay_id Samples.world_three_links "r" "alice" =
  ([CallGetSoup (REPLAY_SEARCH_BASE_URL +:+ "alice")], Return "r3").
Proof.
  apply (lookup_first_match Samples.world_three_links "r" "alice"
           (Samples.page [Samples.link "/r3"; Samples.link "/r2"; Samples.link "/r1"])).
  - reflexivity.
  - unfold anchors_have_href. vm_compute descendants_of.
    repeat (constructor; [intros H; first [discriminate H | eexists; reflexivity]|]).
    constructor.
Defined.

(** C9. [_get_most_recent_replay_id] returns for every input and never
    raises.  It returns the empty string when the search request fails
    (with a warning logged), when scanning the page fails (with a
    warning logged) and when no anchor of the page matches the format.
    In the loop of [extract_replays] a user whose lookup returned the
    empty string is logged and skipped: the loop variables are
    unchanged and the loop goes on with the next user. *)
Theorem lookup_never_raises REPLAY_BASE_URL w format_id :
  let lookup := _get_most_recent_replay_id w format_id in
  let warn e := LogWarning ("Unable to reach server for replays: " +:+ str_exn e) in
  (forall username, exists s, outcome (lookup username) = Return s) /\
  (forall username e,
     w_get_soup_from_url w (REPLAY_SEARCH_BASE_URL +:+ username) = Raise e ->
     lookup username =
     ([CallGetSoup (REPLAY_SEARCH_BASE_URL +:+ username); warn e], Return "")) /\
  (forall username page e,
     w_get_soup_from_url w (REPLAY_SEARCH_BASE_URL +:+ username) = Return page ->
     replay_ids format_id page = Raise e ->
     lookup username =
     ([CallGetSoup (REPLAY_SEARCH_BASE_URL +:+ username); warn e], Return "")) /\
  (forall username page,
     w_get_soup_from_url w (REPLAY_SEARCH_BASE_URL +:+ username) = Return page ->
     List.filter (spec_is_match format_id) (descendants_of page) = [] ->
     outcome (lookup username) = Return "") /\
  (forall num vars u rest,
     outcome (lookup (lu_username u)) = Return "" ->
     let next := for_each (extract_body REPLAY_BASE_URL w format_id num) rest vars in
     for_each (extract_body REPLAY_BASE_URL w format_id num) (u :: rest) vars =
     (trace (lookup (lu_username u))
        ++ LogInfo (not_found_msg format_id u) :: trace next,
      outcome next)).
Proof.
  cbv zeta. split; [apply lookup_returns|]. repeat split.
  - intros username e H. rewrite lookup_unfold. cbv zeta. by rewrite H.
  - intros username page e H Hids. rewrite lookup_unfold. cbv zeta.
    by rewrite H, Hids.
  - intros username page H Hnone. rewrite lookup_unfold. cbv zeta. rewrite H.
    destruct (replay_ids format_id page) as [ids|e] eqn:Hids; [|done].
    unfold replay_ids, find_all in Hids.
    destruct (filter_raising _ _) as [links|] eqn:Hlinks; [|done].
    apply filter_raising_Return in Hlinks. rewrite Hnone in Hlinks. subst links.
    by injection Hids as <-.
  - intros num [acc found] u rest H.
    rewrite for_each_cons, body_unfold. unfold found_id. rewrite H. cbn.
    destruct (for_each _ rest _) as [t o]. cbn. by rewrite <- app_assoc.
Qed.

Lemma lookup_never_raises_witness :
  _get_most_recent_replay_id Samples.world_search_down "gen8ou" "alice" =
  ([CallGetSoup (REPLAY_SEARCH_BASE_URL +:+ "alice");
    LogWarning "Unable to reach server for replays: timed out"], Return "")
  /\ outcome (_get_most_recent_replay_id Samples.world_no_match "gen8ou" "alice")
     = Return ""
  /\ outcome (for_each (extract_body Samples.base_url Samples.world_search_down
                                     "gen8ou" 5)
                       [Samples.alice; Samples.bob] ([], 0))
     = outcome (for_each (extract_body Samples.base_url Samples.world_search_down
                                       "gen8ou" 5)
                         [Samples.bob] ([], 0)).
Proof.
  pose proof (lookup_never_raises Samples.base_url Samples.world_search_down "gen8ou")
    as (_ & Hdown & _ & _ & Hskip).
  pose proof (lookup_never_raises Samples.base_url Samples.world_no_match "gen8ou")
    as (_ & _ & _ & Hnone & _).
  split; [|split].
  - apply (Hdown "alice" (RequestException "timed out")). reflexivity.
  - apply (Hnone "alice" (Samples.page [Samples.link "/gen7ou-1"])); reflexivity.
  - rewrite (Hskip 5 ([], 0) Samples.alice [Samples.bob]); reflexivity.
Defined.

Lemma elem_of_response_calls url (t : list Event) :
  url ∈ response_calls t <-> CallGetResponse url ∈ t.
Proof.
  unfold response_calls. rewrite list_elem_of_omap. split.
  - intros (ev & Hin & Hev). destruct ev; try discriminate.
    by injection Hev as ->.
  - intros Hin. by exists (CallGetResponse url).
Qed.

(** C10 (as stated, refuted).  The replay fetch succeeds with status
    200 and an empty body.  Such a response is truthy, so [json()] is
    called and raises; [_get_replay_json_from_id] does not return the
    empty dictionary, no [KeyError] is raised, [_get_replay_info] logs
    and returns [None], and [extract_replays] returns a list with a
    [None] entry for each of the two users. *)
Lemma empty_body_aborts_counterexample :
  w_get_response_from_url Samples.world_blank_body
    (replay_url Samples.base_url "gen8ou-3")
    = Return (Some (mkResponse true (Raise Samples.json_decode_error))) /\
  outcome (_get_replay_json_from_id Samples.base_url Samples.world_blank_body
                                    "gen8ou-3")
    = Raise Samples.json_decode_error /\
  outcome (_get_replay_info Samples.base_url Samples.world_blank_body
                            Samples.alice "gen8ou-3")
    = Return None /\
  outcome (extract_replays Samples.max_users Samples.base_url
                           Samples.world_blank_body "gen8ou" 2)
    = Return [None; None].
Proof. vm_compute. done. Qed.

(** C10 (amended). When the replay fetch returns a falsy response object
    ([None], or a response whose status is an error),
    [_get_replay_json_from_id] returns the empty dictionary, record
    construction raises [KeyError('id')], which [_get_replay_info] logs
    and re-raises, and every call of [extract_replays] that issues this
    fetch ends by raising [KeyError('id')]: it returns no list. *)
Theorem empty_body_aborts MAX_USERS REPLAY_BASE_URL w format_id replay_id res :
  w_get_response_from_url w (replay_url REPLAY_BASE_URL replay_id) = Return res ->
  response_falsy res = true ->
  _get_replay_json_from_id REPLAY_BASE_URL w replay_id =
    ([CallGetResponse (replay_url REPLAY_BASE_URL replay_id)], Return (JObj ∅)) /\
  (forall u, build_replay_info u (JObj ∅) = Raise (KeyError "id")) /\
  (forall u,
     _get_replay_info REPLAY_BASE_URL w u replay_id =
     ([CallGetResponse (replay_url REPLAY_BASE_URL replay_id);
       LogError "Replay key not found"],
      Raise (KeyError "id"))) /\
  (forall n,
     CallGetResponse (replay_url REPLAY_BASE_URL replay_id)
       ∈ trace (extract_replays MAX_USERS REPLAY_BASE_URL w format_id n) ->
     outcome (extract_replays MAX_USERS REPLAY_BASE_URL w format_id n)
     = Raise (KeyError "id")).
Proof.
  intros Hres Hfalsy. split; [|split; [|split]].
  - by rewrite get_json_unfold, Hres, Hfalsy.
  - done.
  - intros u. by apply get_info_falsy_response with res.
  - intros n. rewrite extract_unfold.
    destruct (users_falsy _).
    + intros Hin. apply list_elem_of_In in Hin. cbn in Hin.
      by destruct Hin as [|[|[]]].
    + cbv zeta. cbn [trace outcome fst snd]. intros Hin.
      apply elem_of_cons in Hin as [|Hin]; [done|].
      apply elem_of_response_calls in Hin.
      by rewrite (loop_falsy_response _ _ _ _ _ _ _ _ Hin Hres Hfalsy).
Qed.

Lemma empty_body_aborts_witness :
  outcome (extract_replays Samples.max_users Samples.base_url
                           Samples.world_empty_body "gen8ou" 2)
  = Raise (KeyError "id").
Proof.
  destruct (empty_body_aborts Samples.max_users Samples.base_url
              Samples.world_empty_body "gen8ou" "gen8ou-3" None)
    as (_ & _ & _ & Habort); [reflexivity|reflexivity|].
  apply (Habort 2). apply list_elem_of_In. vm_compute. tauto.
Defined.

(** C2 (as stated, refuted).  The ranking is not empty, the payload of
    the first user lacks [log], and the call fails with
    [KeyError('log')]; the second user is never looked up. *)
Lemma extract_raises_only_counterexample :
  w_get_users Samples.world_missing_log "gen8ou"
    = Some [Samples.alice; Samples.bob] /\
  extract_replays Samples.max_users Samples.base_url
                  Samples.world_missing_log "gen8ou" 2 =
  ([CallGetUsers "gen8ou";
    CallGetSoup (REPLAY_SEARCH_BASE_URL +:+ "alice");
    LogInfo "Found 'gen8ou' replay for alice";
    CallGetResponse "https://replay.pokemonshowdown.com/gen8ou-3.json";
    LogError "Replay key not found"],
   Raise (KeyError "log")).
Proof. vm_compute. done. Qed.

(** C2 (amended).  A call of [extract_replays] fails in two cases only:
    the ranking is empty or unavailable ([LadderNotFoundException]), or
    a [KeyError] is raised while the record of a ranked user with a
    replay identifier is fetched and built: by the fetch layer itself,
    or because the payload is a dictionary that lacks a required key.
    Lookup failures and all other replay-fetch failures never escape. *)
Theorem extract_raises_only MAX_USERS REPLAY_BASE_URL w format_id n e :
  outcome (extract_replays MAX_USERS REPLAY_BASE_URL w format_id n) = Raise e ->
  (users_falsy (w_get_users w format_id) = true /\
   e = LadderNotFoundException
         ("Could not retrieve ladder rankings for " +:+ format_id))
  \/
  (exists users u replay_id key,
     w_get_users w format_id = Some users /\ u ∈ users /\
     found_id w format_id u = Some replay_id /\
     e = KeyError key /\
     outcome (_get_replay_info REPLAY_BASE_URL w u replay_id) = Raise (KeyError key) /\
     (outcome (_get_replay_json_from_id REPLAY_BASE_URL w replay_id)
        = Raise (KeyError key)
      \/ exists fields,
           outcome (_get_replay_json_from_id REPLAY_BASE_URL w replay_id)
             = Return (JObj fields) /\
           first_missing_key fields = Some key)).
Proof.
  rewrite extract_unfold.
  destruct (users_falsy _) eqn:Hfalsy; cbv zeta; cbn [outcome snd].
  - intros [= <-]. by left.
  - destruct (users_truthy _ Hfalsy) as (u0 & rest & Husers). rewrite Husers.
    cbn [default]. destruct (outcome (for_each _ _ _)) as [vars|e'] eqn:Hrun; [done|].
    intros [= ->]. right.
    apply loop_raises in Hrun as (u & replay_id & Hin & Hid & Hraise).
    destruct (get_info_raises_KeyError _ _ _ _ _ Hraise) as [Hkey Hbody].
    destruct e as [key| | | |]; try discriminate.
    exists (u0 :: rest), u, replay_id, key.
    do 5 (split; [done|]).
    unfold try_body in Hbody.
    destruct (outcome (_get_replay_json_from_id _ _ _)) as [payload|e''];
      [|left; congruence].
    right. destruct (build_KeyError_dict _ _ _ Hbody) as (fields & -> & ?).
    by exists fields.
Qed.

Lemma extract_raises_only_witness :
  (users_falsy (w_get_users Samples.world_empty_ladder "gen8ou") = true /\
   LadderNotFoundException "Could not retrieve ladder rankings for gen8ou"
   = LadderNotFoundException ("Could not retrieve ladder rankings for " +:+ "gen8ou"))
  \/
  (exists users u replay_id key,
     w_get_users Samples.world_empty_ladder "gen8ou" = Some users /\ u ∈ users /\
     found_id Samples.world_empty_ladder "gen8ou" u = Some replay_id /\
     LadderNotFoundException "Could not retrieve ladder rankings for gen8ou"
     = KeyError key /\
     outcome (_get_replay_info Samples.base_url Samples.world_empty_ladder u replay_id)
     = Raise (KeyError key) /\
     (outcome (_get_replay_json_from_id Samples.base_url Samples.world_empty_ladder
                                        replay_id)
        = Raise (KeyError key)
      \/ exists fields,
           outcome (_get_replay_json_from_id Samples.base_url
                      Samples.world_empty_ladder replay_id)
             = Return (JObj fields) /\
           first_missing_key fields = Some key)).
Proof.
  apply (extract_raises_only Samples.max_users Samples.base_url
           Samples.world_empty_ladder "gen8ou" 5).
  reflexivity.
Defined.



(** The scenario of the specification: five ranked users, the second
    and fourth without a matching replay, five requested: three
    records, for the first, third and fifth user, in that order. *)
Example five_users_three_records :
  outcome (extract_replays Samples.max_users Samples.base_url
                           Samples.world_five_users "gen8vgc2020" 5)
  = Return (map (fun u => Some (mkReplayInfo (JStr "r1") (lu_username u)
                                             (lu_rating u) (JStr "gen8ou")
                                             (JStr "...") (JNum 1000)))
                [Samples.alice; Samples.carol; Samples.erin]).
Proof. vm_compute. reflexivity. Qed.


(** When the replay fetch of a user raises anything but [KeyError],
    [_get_replay_info] returns [None], and the loop appends that [None]
    and counts it as a team found. *)
Lemma fetch_failure_appends_None REPLAY_BASE_URL w format_id num acc found u replay_id e :
  found_id w format_id u = Some replay_id ->
  outcome (_get_replay_json_from_id REPLAY_BASE_URL w replay_id) = Raise e ->
  is_KeyError e = false ->
  outcome (_get_replay_info REPLAY_BASE_URL w u replay_id) = Return None /\
  outcome (extract_body REPLAY_BASE_URL w format_id num (acc, found) u) =
  Return (if found + 1 =? num
          then Break (acc ++ [None], found + 1)
          else Continue (acc ++ [None], found + 1)).
Proof.
  intros Hid Hjson Hkey.
  assert (outcome (_get_replay_info REPLAY_BASE_URL w u replay_id) = Return None)
    as Hinfo.
  { rewrite get_info_unfold. unfold try_body. by rewrite Hjson, Hkey. }
  split; [done|]. rewrite body_unfold, Hid. cbn [outcome snd]. by rewrite Hinfo.
Qed.

(** C1 (the code at the failing input).  Two ranked users, one replay
    requested; the replay fetch of the first user fails with a
    [RequestException].  The error is logged, but the returned list
    holds a [None] entry for that user, the entry is counted as the one
    team requested, and the loop stops there: the second user is never
    looked up. *)
Theorem fetch_failure_leaves_None :
  w_get_users Samples.world_fetch_down "gen8ou" = Some [Samples.alice; Samples.bob] /\
  extract_replays Samples.max_users Samples.base_url
                  Samples.world_fetch_down "gen8ou" 1 =
  ([CallGetUsers "gen8ou";
    CallGetSoup (REPLAY_SEARCH_BASE_URL +:+ "alice");
    LogInfo "Found 'gen8ou' replay for alice";
    CallGetResponse "https://replay.pokemonshowdown.com/gen8ou-3.json";
    LogError "Unable to retrieve replay: connection reset"],
   Return [None]).
Proof. vm_compute. done. Qed.

(** C3 (the code at the failing input).  Two ranked users, both with a
    replay, and a request for zero replays: whatever [MAX_USERS] is,
    the clamped count is at most zero, the found-count never equals it,
    and the call returns two entries. *)
Theorem zero_request_returns_all MAX_USERS :
  exists l,
    outcome (extract_replays MAX_USERS Samples.base_url Samples.world_ok "gen8ou" 0)
      = Return l /\
    length l = 2%nat /\
    Z.min 0 MAX_USERS < Z.of_nat (length l).
Proof.
  rewrite (extract_clamp_nonpositive MAX_USERS 0 _ _ _ 0 0) by lia.
  eexists. split; [vm_compute; reflexivity|]. split; [done|]. cbn. lia.
Qed.

(** Whatever the requested count, the list has at most one entry per
    ranked user with a replay identifier. *)
Lemma extract_length_found MAX_USERS REPLAY_BASE_URL w format_id n l users :
  w_get_users w format_id = Some users ->
  outcome (extract_replays MAX_USERS REPLAY_BASE_URL w format_id n) = Return l ->
  (length l <= length (List.filter (has_replay w format_id) users))%nat.
Proof.
  intros Husers. rewrite extract_unfold, Husers.
  destruct (users_falsy _); [done|]. cbv zeta. cbn [outcome snd default].
  destruct (outcome (for_each _ _ _)) as [[l' c]|e] eqn:Hrun; [|done].
  intros [= <-].
  apply loop_returns in Hrun as (seen & unseen & new & Hsplit & -> & _ & Hall & _).
  cbn in Hsplit. subst users.
  cbn [fst app]. apply Forall2_length in Hall. rewrite <- Hall.
  rewrite List.filter_app, length_app. lia.
Qed.

(** * Further properties of the handler *)

(** ** Requests of the loop, whatever its outcome *)

Section LoopRequests.
Variable REPLAY_BASE_URL : string.
Variable w : World.
Variable format_id : string.

Local Abbreviation get_info := (_get_replay_info REPLAY_BASE_URL w).
Local Abbreviation body := (extract_body REPLAY_BASE_URL w format_id).
Local Abbreviation found_id := (found_id w format_id).
Local Abbreviation has_replay := (has_replay w format_id).
Local Abbreviation url_of := (replay_url REPLAY_BASE_URL).

(** The loop, returning or raising, has searched a prefix [seen] of the
    users and fetched the replays of the identifiers found there.  When
    it raises, the last user of [seen] is the one whose record raised,
    and the records of the users before it were built without
    raising. *)
Lemma loop_requests num users vars :
  exists seen unseen,
    users = seen ++ unseen /\
    soup_calls (trace (for_each (body num) users vars)) = map search_url seen /\
    response_calls (trace (for_each (body num) users vars))
      = omap (fun u => url_of <$> found_id u) seen /\
    forall e,
      outcome (for_each (body num) users vars) = Raise e ->
      exists before u replay_id,
        seen = before ++ [u] /\
        found_id u = Some replay_id /\
        outcome (get_info u replay_id) = Raise e /\
        Forall (fun u' => forall id', found_id u' = Some id' ->
                  exists entry, outcome (get_info u' id') = Return entry)
               before.
Proof.
  revert vars. induction users as [|u rest IH]; intros [acc found].
  - exists [], []. by repeat split.
  - rewrite for_each_cons, outcome_bind, trace_bind, soup_calls_app,
      response_calls_app, body_soup_calls, body_response_calls, body_unfold.
    destruct (found_id u) as [replay_id|] eqn:Hid; cbn [outcome snd].
    + destruct (outcome (get_info u replay_id)) as [entry|e] eqn:Hinfo.
      * destruct (found + 1 =? num).
        -- exists [u], rest. cbn [map omap list_omap]. rewrite Hid.
           by repeat split.
        -- destruct (IH (acc ++ [entry], found + 1))
             as (seen & unseen & -> & Hsoup & Hresp & Hraise).
           exists (u :: seen), unseen. cbn [map omap list_omap app].
           rewrite Hid, Hsoup, Hresp. repeat split; try done.
           intros e He. destruct (Hraise e He) as (before & u' & id' & -> & ? & ? & Hall).
           exists (u :: before), u', id'. repeat split; try done.
           constructor; [|done]. intros id'' Hid''. exists entry. congruence.
      * exists [u], rest. cbn [map omap list_omap]. rewrite Hid.
        repeat split; try done.
        intros e' [= <-]. exists [], u, replay_id. repeat split; try done.
    + destruct (IH (acc, found)) as (seen & unseen & -> & Hsoup & Hresp & Hraise).
      exists (u :: seen), unseen. cbn [map omap list_omap app].
      rewrite Hid, Hsoup, Hresp. repeat split; try done.
      intros e He. destruct (Hraise e He) as (before & u' & id' & -> & ? & ? & Hall).
      exists (u :: before), u', id'. repeat split; try done.
      constructor; [|done]. intros id'' Hid''. congruence.
Qed.

End LoopRequests.

Lemma length_omap_le {A B} (f : A -> option B) (l : list A) :
  (length (omap f l) <= length l)%nat.
Proof.
  induction l as [|x l IH]; cbn; [done|]. destruct (f x); cbn; lia.
Qed.

(** X1. Whatever a call of [extract_replays] ends with (a list,
    [LadderNotFoundException] or a [KeyError]), its search requests are
    those of a prefix of the ranking, one per user and in ranking
    order, and its replay requests are those of the identifiers found
    for the users of that prefix, in the same order.  So a call makes
    at most one search per ranked user and at most one replay request
    per search. *)
Theorem requests_follow_ranking MAX_USERS REPLAY_BASE_URL w format_id n :
  let call := extract_replays MAX_USERS REPLAY_BASE_URL w format_id n in
  let users := default [] (w_get_users w format_id) in
  exists seen unseen,
    users = seen ++ unseen /\
    soup_calls (trace call) = map search_url seen /\
    response_calls (trace call)
      = omap (fun u => replay_url REPLAY_BASE_URL <$> found_id w format_id u) seen /\
    (length (response_calls (trace call)) <= length (soup_calls (trace call)))%nat /\
    (length (soup_calls (trace call)) <= length users)%nat.
Proof.
  cbv zeta. rewrite extract_unfold.
  destruct (users_falsy _).
  - exists [], (default [] (w_get_users w format_id)). cbn. repeat split; lia.
  - cbv zeta. cbn [trace fst].
    destruct (loop_requests REPLAY_BASE_URL w format_id (Z.min n MAX_USERS)
                (default [] (w_get_users w format_id)) ([], 0))
      as (seen & unseen & Hsplit & Hsoup & Hresp & _).
    exists seen, unseen.
    change (soup_calls (CallGetUsers format_id :: ?t)) with (soup_calls t).
    change (response_calls (CallGetUsers format_id :: ?t)) with (response_calls t).
    rewrite Hsoup, Hresp, Hsplit. repeat split; try done.
    + rewrite length_map. apply length_omap_le.
    + rewrite length_map, length_app. lia.
Qed.

(** X2. When [extract_replays] raises a [KeyError], the ranking splits
    into the users gone through, the user whose record raised, and the
    users never reached.  The records of the users before the failing
    one were fetched without raising and are lost with the call; the
    last search request is the failing user's, and no user after it is
    searched. *)
Theorem key_error_aborts_at_first MAX_USERS REPLAY_BASE_URL w format_id n key :
  let call := extract_replays MAX_USERS REPLAY_BASE_URL w format_id n in
  outcome call = Raise (KeyError key) ->
  exists before u unseen replay_id,
    w_get_users w format_id = Some (before ++ u :: unseen) /\
    found_id w format_id u = Some replay_id /\
    outcome (_get_replay_info REPLAY_BASE_URL w u replay_id) = Raise (KeyError key) /\
    Forall (fun u' => forall id', found_id w format_id u' = Some id' ->
              exists entry,
                outcome (_get_replay_info REPLAY_BASE_URL w u' id') = Return entry)
           before /\
    soup_calls (trace call) = map search_url (before ++ [u]).
Proof.
  cbv zeta. rewrite extract_unfold.
  destruct (users_falsy _) eqn:Hfalsy; [done|]. cbv zeta. cbn [outcome trace fst snd].
  destruct (loop_requests REPLAY_BASE_URL w format_id (Z.min n MAX_USERS)
              (default [] (w_get_users w format_id)) ([], 0))
    as (seen & unseen & Hsplit & Hsoup & _ & Hraise).
  destruct (outcome (for_each _ _ _)) as [vars|e] eqn:Hrun; [done|].
  intros [= ->].
  destruct (Hraise _ eq_refl) as (before & u & replay_id & -> & Hid & Hinfo & Hall).
  change (soup_calls (CallGetUsers format_id :: ?t)) with (soup_calls t).
  rewrite Hsoup.
  destruct (users_truthy _ Hfalsy) as (u0 & rest & Husers).
  rewrite Husers in Hsplit |- *. cbn in Hsplit.
  exists before, u, unseen, replay_id.
  rewrite Hsplit, <- app_assoc. done.
Qed.

Lemma key_error_aborts_at_first_witness :
  exists before u unseen replay_id,
    w_get_users Samples.world_missing_log "gen8ou" = Some (before ++ u :: unseen) /\
    found_id Samples.world_missing_log "gen8ou" u = Some replay_id /\
    outcome (_get_replay_info Samples.base_url Samples.world_missing_log u replay_id)
      = Raise (KeyError "log") /\
    Forall (fun u' => forall id',
              found_id Samples.world_missing_log "gen8ou" u' = Some id' ->
              exists entry,
                outcome (_get_replay_info Samples.base_url Samples.world_missing_log
                                          u' id') = Return entry)
           before /\
    soup_calls (trace (extract_replays Samples.max_users Samples.base_url
                                       Samples.world_missing_log "gen8ou" 2))
      = map search_url (before ++ [u]).
Proof.
  apply (key_error_aborts_at_first Samples.max_users Samples.base_url
           Samples.world_missing_log "gen8ou" 2 "log").
  vm_compute. reflexivity.
Defined.

(** ** How the requested count shapes the list *)

(** X3. The length of a returned list is exact: with a positive clamped
    count it is the smaller of that count and the number of ranked
    users with a replay identifier; with a clamped count of zero or
    less it is the number of ranked users with a replay identifier. *)
Theorem extract_length_exact MAX_USERS REPLAY_BASE_URL w format_id n l :
  outcome (extract_replays MAX_USERS REPLAY_BASE_URL w format_id n) = Return l ->
  let found := Z.of_nat (length (List.filter (has_replay w format_id)
                                             (default [] (w_get_users w format_id)))) in
  Z.of_nat (length l) =
  if 0 <? Z.min n MAX_USERS then Z.min (Z.min n MAX_USERS) found else found.
Proof.
  rewrite extract_unfold.
  destruct (users_falsy _); [done|]. cbv zeta. cbn [outcome snd].
  destruct (outcome (for_each _ _ _)) as [[l' c]|e] eqn:Hrun; [|done].
  intros [= <-]. cbn [fst].
  assert (0 < Z.min n MAX_USERS -> c <= Z.min n MAX_USERS) as Hbound.
  { intros Hpos. exact (loop_count_bound _ _ _ _ _ _ _ _ _ Hpos Hrun). }
  apply loop_returns in Hrun
    as (seen & unseen & new & -> & -> & -> & Hall & _ & _ & Hend).
  apply Forall2_length in Hall. cbn [app] in *.
  rewrite List.filter_app, length_app.
  destruct Hend as [->|[Hc (before & u & -> & Hu)]].
  - cbn [List.filter length]. destruct (Z.ltb_spec 0 (Z.min n MAX_USERS)); lia.
  - rewrite List.filter_app, length_app in Hall |- *.
    cbn [List.filter] in Hall |- *. rewrite Hu in Hall |- *. cbn [length] in Hall |- *.
    destruct (Z.ltb_spec 0 (Z.min n MAX_USERS)); lia.
Qed.

Lemma extract_length_exact_witness :
  Z.of_nat (length (map (fun u => Some (mkReplayInfo (JStr "r1") (lu_username u)
                                                     (lu_rating u) (JStr "gen8ou")
                                                     (JStr "...") (JNum 1000)))
                        [Samples.alice; Samples.carol; Samples.erin])) =
  if 0 <? Z.min 5 Samples.max_users
  then Z.min (Z.min 5 Samples.max_users)
             (Z.of_nat (length (List.filter
                                  (has_replay Samples.world_five_users "gen8vgc2020")
                                  (default [] (w_get_users Samples.world_five_users
                                                           "gen8vgc2020")))))
  else Z.of_nat (length (List.filter
                           (has_replay Samples.world_five_users "gen8vgc2020")
                           (default [] (w_get_users Samples.world_five_users
                                                    "gen8vgc2020")))).
Proof.
  apply (extract_length_exact Samples.max_users Samples.base_url
           Samples.world_five_users "gen8vgc2020" 5).
  vm_compute. reflexivity.
Defined.

Section LoopCount.
Variable REPLAY_BASE_URL : string.
Variable w : World.
Variable format_id : string.

Local Abbreviation get_info := (_get_replay_info REPLAY_BASE_URL w).
Local Abbreviation body := (extract_body REPLAY_BASE_URL w format_id).
Local Abbreviation found_id := (found_id w format_id).

(** A run with a smaller positive count returns the first entries of
    the run with the larger count. *)
Lemma loop_take num num' users acc found l' c' :
  found < num -> num <= num' ->
  outcome (for_each (body num') users (acc, found)) = Return (l', c') ->
  exists c,
    outcome (for_each (body num) users (acc, found))
    = Return (take (length acc + Z.to_nat (num - found)) l', c).
Proof.
  revert acc found.
  induction users as [|u rest IH]; intros acc found Hlt Hle H.
  - injection H as <- <-. exists found. cbn. by rewrite take_ge by lia.
  - rewrite for_each_cons, outcome_bind, body_unfold in H |- *.
    destruct (found_id u) as [replay_id|]; cbn [outcome snd] in H |- *;
      [|by apply IH].
    destruct (outcome (get_info u replay_id)) as [entry|e]; [|done].
    destruct (Z.eqb_spec (found + 1) num') as [Heq'|Hne'].
    + injection H as <- <-.
      destruct (Z.eqb_spec (found + 1) num); [|lia].
      exists (found + 1). cbn. rewrite take_ge; [done|]. rewrite length_app. cbn. lia.
    + destruct (Z.eqb_spec (found + 1) num) as [Heq|Hne].
      * apply loop_returns in H as (_ & _ & new & _ & -> & _).
        exists (found + 1). cbn. f_equal. f_equal.
        rewrite take_app_length'; [done|]. rewrite length_app. cbn. lia.
      * destruct (IH (acc ++ [entry]) (found + 1)) as [c Hc]; [lia|lia|done|].
        exists c. rewrite Hc. f_equal. f_equal. f_equal.
        rewrite length_app. cbn. lia.
Qed.

(** A run that stopped on reaching a positive count is unchanged by
    further users at the end of the ranking. *)
Lemma loop_break_app num users more acc found l :
  found < num ->
  outcome (for_each (body num) users (acc, found)) = Return (l, num) ->
  for_each (body num) (users ++ more) (acc, found)
  = for_each (body num) users (acc, found).
Proof.
  revert acc found.
  induction users as [|u rest IH]; intros acc found Hlt H.
  - injection H as _ Hfound. lia.
  - cbn [app]. rewrite !for_each_cons. rewrite for_each_cons, outcome_bind in H.
    rewrite body_unfold in H |- *.
    destruct (found_id u) as [replay_id|]; cbn [outcome snd] in H.
    + destruct (get_info u replay_id) as [t [entry|e]]; cbn [outcome snd] in H |- *;
        [|done].
      destruct (Z.eqb_spec (found + 1) num); [done|].
      cbn. rewrite (IH (acc ++ [entry]) (found + 1)) by (lia || done). done.
    + cbn. by rewrite (IH acc found).
Qed.

(** So is a run that raised. *)
Lemma loop_raise_app num users more vars e :
  outcome (for_each (body num) users vars) = Raise e ->
  for_each (body num) (users ++ more) vars = for_each (body num) users vars.
Proof.
  revert vars.
  induction users as [|u rest IH]; intros [acc found] H; [done|].
  cbn [app]. rewrite !for_each_cons. rewrite for_each_cons, outcome_bind in H.
  rewrite body_unfold in H |- *.
  destruct (found_id u) as [replay_id|]; cbn [outcome snd] in H.
  - destruct (get_info u replay_id) as [t [entry|e']]; cbn [outcome snd] in H |- *;
      [|done].
    destruct (Z.eqb_spec (found + 1) num); [done|].
    cbn. by rewrite (IH (acc ++ [entry], found + 1)).
  - cbn. by rewrite (IH (acc, found)).
Qed.

End LoopCount.

(** X4. Asking for fewer replays returns the first entries of what
    asking for more returns: when the call with the larger positive
    clamped count returns a list, the call with the smaller positive
    clamped count returns its first [min(N, MAX_USERS)] entries. *)
Theorem smaller_request_is_prefix MAX_USERS REPLAY_BASE_URL w format_id n n' l' :
  0 < Z.min n MAX_USERS ->
  Z.min n MAX_USERS <= Z.min n' MAX_USERS ->
  outcome (extract_replays MAX_USERS REPLAY_BASE_URL w format_id n') = Return l' ->
  outcome (extract_replays MAX_USERS REPLAY_BASE_URL w format_id n)
  = Return (take (Z.to_nat (Z.min n MAX_USERS)) l').
Proof.
  intros Hpos Hle. rewrite !extract_unfold.
  destruct (users_falsy _); [done|]. cbv zeta. cbn [outcome snd].
  destruct (outcome (for_each (extract_body _ _ _ (Z.min n' MAX_USERS)) _ _))
    as [[l c']|e] eqn:Hrun; [|done].
  intros [= <-]. cbn [fst].
  destruct (loop_take _ _ _ _ _ _ _ _ _ _ Hpos Hle Hrun) as [c ->].
  cbn [fst length]. by rewrite Z.sub_0_r.
Qed.

Lemma smaller_request_is_prefix_witness :
  outcome (extract_replays Samples.max_users Samples.base_url
                           Samples.world_five_users "gen8vgc2020" 2)
  = Return (take (Z.to_nat (Z.min 2 Samples.max_users))
                 (map (fun u => Some (mkReplayInfo (JStr "r1") (lu_username u)
                                                   (lu_rating u) (JStr "gen8ou")
                                                   (JStr "...") (JNum 1000)))
                      [Samples.alice; Samples.carol; Samples.erin])).
Proof.
  apply (smaller_request_is_prefix Samples.max_users Samples.base_url
           Samples.world_five_users "gen8vgc2020" 2 5).
  - vm_compute. reflexivity.
  - vm_compute. discriminate.
  - vm_compute. reflexivity.
Defined.

(** The loop body reads the world through the two fetch helpers only. *)
Lemma extract_body_with_ranking REPLAY_BASE_URL w users format_id :
  extract_body REPLAY_BASE_URL (with_ranking w users) format_id
  = extract_body REPLAY_BASE_URL w format_id.
Proof. reflexivity. Qed.

(** X5. Once a call has raised a [KeyError], or has returned as many
    entries as its positive clamped count, the rest of the ranking is
    irrelevant: with further users appended to the ranking the call
    has the same outcome and the same trace. *)
Theorem ranking_tail_irrelevant MAX_USERS REPLAY_BASE_URL w format_id users more n :
  let call := extract_replays MAX_USERS REPLAY_BASE_URL
                              (with_ranking w users) format_id n in
  (exists key, outcome call = Raise (KeyError key)) \/
  (0 < Z.min n MAX_USERS /\
   exists l, outcome call = Return l /\ Z.of_nat (length l) = Z.min n MAX_USERS) ->
  extract_replays MAX_USERS REPLAY_BASE_URL (with_ranking w (users ++ more)) format_id n
  = call.
Proof.
  cbv zeta. rewrite !extract_unfold. cbn [w_get_users with_ranking].
  destruct users as [|u0 rest].
  - intros [[key H]|(_ & l & H & _)]; discriminate.
  - cbn [app users_falsy default from_option id]. cbv zeta. cbn [outcome snd].
    rewrite !extract_body_with_ranking.
    change (u0 :: rest ++ more) with ((u0 :: rest) ++ more).
    destruct (outcome (for_each _ (u0 :: rest) _)) as [[l' c]|e] eqn:Hrun.
    + intros [[key H]|(Hpos & l & [= <-] & Hlen)]; [done|]. cbn [fst] in Hlen.
      pose proof Hrun as Hret.
      apply loop_returns in Hret as (_ & _ & new & _ & Hl & Hc & _).
      cbn [app] in Hl. subst l'.
      assert (c = Z.min n MAX_USERS) as -> by lia.
      by rewrite (loop_break_app _ _ _ _ _ more _ _ _ Hpos Hrun), Hrun.
    + intros _. by rewrite (loop_raise_app _ _ _ _ _ more _ _ Hrun), Hrun.
Qed.

Lemma ranking_tail_irrelevant_witness :
  extract_replays Samples.max_users Samples.base_url
    (with_ranking Samples.world_ok ([Samples.alice] ++ [Samples.bob; Samples.carol]))
    "gen8ou" 1
  = extract_replays Samples.max_users Samples.base_url
      (with_ranking Samples.world_ok [Samples.alice]) "gen8ou" 1.
Proof.
  apply (ranking_tail_irrelevant Samples.max_users Samples.base_url Samples.world_ok
           "gen8ou" [Samples.alice] [Samples.bob; Samples.carol] 1).
  right. split; [vm_compute; reflexivity|].
  eexists. split; vm_compute; reflexivity.
Defined.

(** ** Building one record *)

(** X6. Round trip of record construction: when the fetched payload is
    a dictionary with the four keys, [_get_replay_info] returns the
    record made of the payload's [id], [format], [log] and [uploadtime]
    values and of the user's name and rating; its only effect is the
    replay request, and nothing is logged. *)
Theorem complete_payload_gives_record REPLAY_BASE_URL w u replay_id fields
    v_id v_format v_log v_uploadtime :
  outcome (_get_replay_json_from_id REPLAY_BASE_URL w replay_id)
    = Return (JObj fields) ->
  fields !! "id" = Some v_id ->
  fields !! "format" = Some v_format ->
  fields !! "log" = Some v_log ->
  fields !! "uploadtime" = Some v_uploadtime ->
  _get_replay_info REPLAY_BASE_URL w u replay_id =
  ([CallGetResponse (replay_url REPLAY_BASE_URL replay_id)],
   Return (Some (mkReplayInfo v_id (lu_username u) (lu_rating u)
                              v_format v_log v_uploadtime))).
Proof.
  intros Hjson Hid Hformat Hlog Hup.
  rewrite get_info_unfold. unfold try_body. rewrite Hjson.
  unfold build_replay_info, subscript. by rewrite Hid, Hformat, Hlog, Hup.
Qed.

Lemma complete_payload_gives_record_witness :
  _get_replay_info Samples.base_url Samples.world_ok Samples.alice "r1" =
  ([CallGetResponse (replay_url Samples.base_url "r1")],
   Return (Some (mkReplayInfo (JStr "r1") "alice" 1500 (JStr "gen8ou")
                              (JStr "...") (JNum 1000)))).
Proof.
  apply (complete_payload_gives_record Samples.base_url Samples.world_ok
           Samples.alice "r1"
           (<["id" := JStr "r1"]> (<["format" := JStr "gen8ou"]>
              (<["log" := JStr "..."]> (<["uploadtime" := JNum 1000]> ∅)))));
    reflexivity.
Defined.

(** X7. A payload that is not a dictionary (an array, a string, a
    number, a boolean, [null]) never gives a [KeyError]: the subscript
    raises [TypeError], which [_get_replay_info] logs as "Unable to
    retrieve replay" and swallows, returning [None]. *)
Theorem non_dict_payload_is_swallowed REPLAY_BASE_URL w u replay_id payload :
  outcome (_get_replay_json_from_id REPLAY_BASE_URL w replay_id) = Return payload ->
  (forall fields, payload <> JObj fields) ->
  exists msg,
    build_replay_info u payload = Raise (TypeError msg) /\
    _get_replay_info REPLAY_BASE_URL w u replay_id =
    ([CallGetResponse (replay_url REPLAY_BASE_URL replay_id);
      LogError ("Unable to retrieve replay: " +:+ msg)],
     Return None).
Proof.
  intros Hjson Hnot. rewrite get_info_unfold. unfold try_body. rewrite Hjson.
  destruct payload as [| | | | |fields]; try (by eexists).
  by destruct (Hnot fields).
Qed.

Lemma non_dict_payload_is_swallowed_witness :
  exists msg,
    build_replay_info Samples.alice (JArr [JStr "r1"]) = Raise (TypeError msg) /\
    _get_replay_info Samples.base_url Samples.world_list_payload
                     Samples.alice "gen8ou-3" =
    ([CallGetResponse (replay_url Samples.base_url "gen8ou-3");
      LogError ("Unable to retrieve replay: " +:+ msg)],
     Return None).
Proof.
  apply (non_dict_payload_is_swallowed Samples.base_url Samples.world_list_payload
           Samples.alice "gen8ou-3" (JArr [JStr "r1"])).
  - reflexivity.
  - intros fields. discriminate.
Defined.

(** X8. [_get_replay_json_from_id] makes exactly one request and adds
    nothing of its own to what the fetch layer does: it raises [e]
    exactly when the request raised [e], or when a truthy response's
    [json()] raised [e]; it returns a payload exactly when the response
    was falsy and the payload is the empty dictionary, or when a truthy
    response's [json()] returned that payload. *)
Theorem replay_json_is_transparent REPLAY_BASE_URL w replay_id :
  let call := _get_replay_json_from_id REPLAY_BASE_URL w replay_id in
  let answer := w_get_response_from_url w (replay_url REPLAY_BASE_URL replay_id) in
  trace call = [CallGetResponse (replay_url REPLAY_BASE_URL replay_id)] /\
  (forall e,
     outcome call = Raise e <->
     answer = Raise e \/
     exists r, answer = Return (Some r) /\ resp_ok r = true /\ resp_json r = Raise e) /\
  (forall payload,
     outcome call = Return payload <->
     (exists res, answer = Return res /\ response_falsy res = true /\
                  payload = JObj ∅) \/
     exists r, answer = Return (Some r) /\ resp_ok r = true /\
               resp_json r = Return payload).
Proof.
  cbv zeta. rewrite get_json_unfold. cbn [trace outcome fst snd].
  split; [done|].
  destruct (w_get_response_from_url w _) as [[r|]|e0]; cbn [response_falsy].
  - destruct (resp_ok r) eqn:Hok; cbn [negb].
    + split.
      * intros e. split; [intros He; right; by exists r|].
        intros [|(r' & [= <-] & _ & ?)]; done.
      * intros payload. split; [intros He; right; by exists r|].
        intros [(res & [= <-] & Hf & _)|(r' & [= <-] & _ & ?)]; [|done].
        cbn in Hf. by rewrite Hok in Hf.
    + split.
      * intros e. split; [done|].
        intros [|(r' & [= <-] & Hok' & _)]; [done|congruence].
      * intros payload. split.
        -- intros [= <-]. left. exists (Some r). cbn. by rewrite Hok.
        -- intros [(res & _ & _ & ->)|(r' & [= <-] & Hok' & _)]; [done|congruence].
  - split.
    + intros e. split; [done|]. by intros [|(r' & ? & _)].
    + intros payload. split.
      * intros [= <-]. left. by exists None.
      * by intros [(res & _ & _ & ->)|(r' & ? & _)].
  - split.
    + intros e. split; [intros [= <-]; by left|].
      by intros [[= <-]|(r' & ? & _)].
    + intros payload. split; [done|].
      by intros [(res & ? & _)|(r' & ? & _)].
Qed.

(** ** What a lookup result is *)

(** X9. A non-empty lookup result is never made up: on every page, when
    [_get_most_recent_replay_id] returns a non-empty string, the search
    request returned a page, and the string is the [href], without its
    first character, of the first anchor in document order whose
    [href] contains the format identifier as a substring. *)
Theorem lookup_result_is_first_match w format_id username s :
  outcome (_get_most_recent_replay_id w format_id username) = Return s ->
  s <> "" ->
  exists page first others href before after,
    w_get_soup_from_url w (REPLAY_SEARCH_BASE_URL +:+ username) = Return page /\
    List.filter (spec_is_match format_id) (descendants_of page) = first :: others /\
    tag_name first = "a" /\
    tag_get first "href" = Some href /\
    href = before +:+ format_id +:+ after /\
    s = PyStr.drop_first href.
Proof.
  rewrite lookup_unfold. cbv zeta.
  destruct (w_get_soup_from_url w _) as [page|e]; [|by intros [= <-]].
  destruct (replay_ids format_id page) as [ids|e] eqn:Hids; [|by intros [= <-]].
  destruct ids as [|id1 ids]; [by intros [= <-]|].
  intros [= <-] _. unfold replay_ids, find_all in Hids.
  destruct (filter_raising _ _) as [links|] eqn:Hlinks; [|done].
  apply filter_raising_Return in Hlinks.
  destruct links as [|first others]; [done|]. cbn [map_raising] in Hids.
  unfold href_tail at 1 in Hids.
  destruct (tag_get first "href") as [href|] eqn:Hhref; [|done].
  destruct (map_raising _ others); [|done]. injection Hids as <- _.
  assert (spec_is_match format_id first = true) as Hmatch.
  { assert (In first (first :: others)) as Hin by by left.
    rewrite Hlinks in Hin. by apply filter_In in Hin as [_ ?]. }
  unfold spec_is_match in Hmatch. rewrite Hhref in Hmatch.
  apply andb_true_iff in Hmatch as [Hname Hsub].
  apply String.eqb_eq in Hname. apply contains_spec in Hsub as (before & after & ->).
  by exists page, first, others, (before +:+ format_id +:+ after), before, after.
Qed.

Lemma lookup_result_is_first_match_witness :
  exists page first others href before after,
    w_get_soup_from_url Samples.world_ok (REPLAY_SEARCH_BASE_URL +:+ "alice")
      = Return page /\
    List.filter (spec_is_match "gen8ou") (descendants_of page) = first :: others /\
    tag_name first = "a" /\
    tag_get first "href" = Some href /\
    href = before +:+ "gen8ou" +:+ after /\
    "gen8ou-3" = PyStr.drop_first href.
Proof.
  apply (lookup_result_is_first_match Samples.world_ok "gen8ou" "alice" "gen8ou-3").
  - vm_compute. reflexivity.
  - discriminate.
Defined.

(** ** A ranking whose payloads are all complete *)

(** X10. When the ranking is not empty and the payload fetched for
    every ranked user with a replay identifier is a dictionary with the
    four keys, [extract_replays] returns a list, whatever the requested
    count, and every entry of the list is a record: there is no [None]
    among them. *)
Theorem complete_payloads_give_records MAX_USERS REPLAY_BASE_URL w format_id n u0 rest :
  w_get_users w format_id = Some (u0 :: rest) ->
  (forall u replay_id,
     u ∈ u0 :: rest ->
     found_id w format_id u = Some replay_id ->
     exists fields,
       outcome (_get_replay_json_from_id REPLAY_BASE_URL w replay_id)
         = Return (JObj fields) /\
       first_missing_key fields = None) ->
  exists l,
    outcome (extract_replays MAX_USERS REPLAY_BASE_URL w format_id n) = Return l /\
    Forall (fun entry => is_Some entry) l.
Proof.
  intros Husers Hgood.
  assert (forall u replay_id, u ∈ u0 :: rest ->
            found_id w format_id u = Some replay_id ->
            exists info, outcome (_get_replay_info REPLAY_BASE_URL w u replay_id)
                         = Return (Some info)) as Hinfo.
  { intros u replay_id Hin Hid.
    destruct (Hgood u replay_id Hin Hid) as (fields & Hjson & Hkeys).
    rewrite get_info_unfold. unfold try_body.
    rewrite Hjson, build_on_dict, Hkeys. by eexists. }
  rewrite extract_unfold, Husers. cbn [users_falsy default from_option id].
  cbv zeta. cbn [outcome snd].
  destruct (outcome (for_each _ _ _)) as [[l c]|e] eqn:Hrun.
  - exists l. split; [done|].
    apply loop_returns in Hrun as (seen & unseen & new & Hsplit & -> & _ & Hall & _).
    cbn [fst app].
    assert (forall u, u ∈ List.filter (has_replay w format_id) seen -> u ∈ u0 :: rest)
      as Hsub.
    { intros u Hu. apply list_elem_of_In, filter_In in Hu as [Hu _].
      rewrite Hsplit. apply elem_of_app. left. by apply list_elem_of_In. }
    clear Hsplit. induction Hall as [|u entry us es Hentry _ IH]; [constructor|].
    constructor.
    + destruct Hentry as (replay_id & Hid & Hret).
      destruct (Hinfo u replay_id) as [info Hsome]; [apply Hsub; by left|done|].
      rewrite Hsome in Hret. injection Hret as <-. by eexists.
    + apply IH. intros u' Hu'. apply Hsub. by right.
  - apply loop_raises in Hrun as (u & replay_id & Hin & Hid & Hraise).
    destruct (Hinfo u replay_id Hin Hid) as [info Hsome]. congruence.
Qed.

Lemma complete_payloads_give_records_witness :
  exists l,
    outcome (extract_replays Samples.max_users Samples.base_url
                             Samples.world_ok "gen8ou" 7) = Return l /\
    Forall (fun entry => is_Some entry) l.
Proof.
  apply (complete_payloads_give_records Samples.max_users Samples.base_url
           Samples.world_ok "gen8ou" 7 Samples.alice [Samples.bob]).
  - reflexivity.
  - intros u replay_id _ _. rewrite get_json_unfold.
    eexists. split; [reflexivity|]. vm_compute. reflexivity.
Defined.

(** ** Short lists and transport errors *)

(** X11. A returned list whose length differs from the clamped count,
    or any returned list when the clamped count is zero or less, comes
    from a complete scan: every ranked user was searched, in ranking
    order, and the list has one entry for each ranked user with a
    replay identifier. *)
Theorem short_list_is_complete_scan MAX_USERS REPLAY_BASE_URL w format_id n l :
  let call := extract_replays MAX_USERS REPLAY_BASE_URL w format_id n in
  let users := default [] (w_get_users w format_id) in
  outcome call = Return l ->
  Z.of_nat (length l) <> Z.min n MAX_USERS \/ Z.min n MAX_USERS <= 0 ->
  soup_calls (trace call) = map search_url users /\
  Forall2 (entry_of REPLAY_BASE_URL w format_id)
          (List.filter (has_replay w format_id) users) l.
Proof.
  cbv zeta. rewrite extract_unfold.
  destruct (users_falsy _); [done|]. cbv zeta. cbn [outcome trace fst snd].
  destruct (outcome (for_each _ _ _)) as [[l' c]|e] eqn:Hrun; [|done].
  intros [= <-] Hshort. cbn [fst] in *.
  change (soup_calls (CallGetUsers format_id :: ?t)) with (soup_calls t).
  apply loop_returns in Hrun
    as (seen & unseen & new & Hsplit & -> & -> & Hall & Hsoup & _ & Hend).
  cbn [app] in *. rewrite Hsoup, Hsplit.
  destruct Hend as [->|[Hc (before & u & -> & Hu)]].
  - by rewrite app_nil_r.
  - apply Forall2_length in Hall.
    rewrite List.filter_app, length_app in Hall. cbn [List.filter] in Hall.
    rewrite Hu in Hall. cbn [length] in Hall. lia.
Qed.

Lemma short_list_is_complete_scan_witness :
  soup_calls (trace (extract_replays Samples.max_users Samples.base_url
                                     Samples.world_five_users "gen8vgc2020" 5))
  = map search_url (default [] (w_get_users Samples.world_five_users "gen8vgc2020"))
  /\ Forall2 (entry_of Samples.base_url Samples.world_five_users "gen8vgc2020")
             (List.filter (has_replay Samples.world_five_users "gen8vgc2020")
                          (default [] (w_get_users Samples.world_five_users
                                                   "gen8vgc2020")))
             (map (fun u => Some (mkReplayInfo (JStr "r1") (lu_username u)
                                               (lu_rating u) (JStr "gen8ou")
                                               (JStr "...") (JNum 1000)))
                  [Samples.alice; Samples.carol; Samples.erin]).
Proof.
  apply (short_list_is_complete_scan Samples.max_users Samples.base_url
           Samples.world_five_users "gen8vgc2020" 5).
  - vm_compute. reflexivity.
  - left. vm_compute. discriminate.
Defined.

(** X12. A [KeyError] raised by the fetch layer itself (by the request
    or by [json()]) is handled like a missing field:
    [_get_replay_info] logs "Replay key not found" and re-raises it. *)
Theorem transport_key_error_is_reraised REPLAY_BASE_URL w u replay_id key :
  outcome (_get_replay_json_from_id REPLAY_BASE_URL w replay_id)
    = Raise (KeyError key) ->
  _get_replay_info REPLAY_BASE_URL w u replay_id =
  ([CallGetResponse (replay_url REPLAY_BASE_URL replay_id);
    LogError "Replay key not found"],
   Raise (KeyError key)).
Proof.
  intros Hjson. rewrite get_info_unfold. unfold try_body. by rewrite Hjson.
Qed.

Lemma transport_key_error_is_reraised_witness :
  _get_replay_info Samples.base_url Samples.world_json_key_error
                   Samples.alice "gen8ou-3" =
  ([CallGetResponse (replay_url Samples.base_url "gen8ou-3");
    LogError "Replay key not found"],
   Raise (KeyError "status")).
Proof.
  apply (transport_key_error_is_reraised Samples.base_url
           Samples.world_json_key_error Samples.alice "gen8ou-3" "status").
  reflexivity.
Defined.
